(** * Access control rules of oauth2_lib: a shallow embedding

    The development follows [oauth2_lib/access_control.py]: the condition
    classes ([TargetOrganizations], [SABRoles], [Teams], [Scopes], [AnyOf],
    [AllOf], [OrganizationGUID]), the [UserAttributes] view over the OAuth2
    claims, and [AccessControl] with its constructor (the rule compiler) and
    [is_allowed] (the evaluator).

    Python values that reach the code from configuration files, token claims
    and request bodies are dynamically typed; they are modelled by [pyval].
    Every operation that Python may refuse at run time returns a [result]. *)

From stdpp Require Import gmap strings list pretty.
From Stdlib Require Import String Ascii ZArith Permutation.

Open Scope string_scope.
Open Scope Z_scope.

Set Warnings "-register-all".

(** ** Python values *)

(** Values as they come out of a YAML/JSON document: [None], booleans,
    integers, strings, lists and mappings with string keys. A mapping is an
    association list in insertion order (Python dictionaries iterate in
    insertion order); the keys of a Python dictionary are pairwise distinct. *)
Inductive pyval : Type :=
| VNone
| VBool (b : bool)
| VInt (z : Z)
| VStr (s : string)
| VList (l : list pyval)
| VDict (d : list (string * pyval)).

Definition pydict : Type := list (string * pyval).

(** The members a Python [set] can hold. [bool] is a subclass of [int] with
    [True == 1] and [hash(True) == hash(1)], so as members of a set the two
    are one element; lists and dictionaries are unhashable. *)
Inductive hashable : Type :=
| HNone
| HInt (z : Z)
| HStr (s : string).

#[global] Instance hashable_eq_dec : EqDecision hashable.
Proof. solve_decision. Defined.

#[global] Instance hashable_countable : Countable hashable.
Proof.
  refine (inj_countable'
    (fun h => match h with
              | HNone => inl tt
              | HInt z => inr (inl z)
              | HStr s => inr (inr s)
              end)
    (fun x => match x with
              | inl _ => HNone
              | inr (inl z) => HInt z
              | inr (inr s) => HStr s
              end) _).
  by intros [].
Defined.

(** ** Exceptions and results *)

Inductive exn : Type :=
| KeyError (key : pyval)
| AssertionError (msg : string)
| TypeError
| AttributeError
| UnboundLocalError
| InvalidRuleDefinition (msg : string) (counter : nat) (definition : pyval)
| Forbidden (description : string).

Inductive result (A : Type) : Type :=
| Ok (a : A)
| Raise (e : exn).
Arguments Ok {A} a.
Arguments Raise {A} e.

Definition rbind {A B : Type} (m : result A) (k : A -> result B) : result B :=
  match m with
  | Ok a => k a
  | Raise e => Raise e
  end.

Notation "x <- m ;; k" := (rbind m (fun x => k))
  (at level 100, m at next level, right associativity).

(** [mapM f l]: run [f] on the elements from left to right, stopping at the
    first exception (a comprehension or generator consumed in full). *)
Fixpoint mapM {A B : Type} (f : A -> result B) (l : list A) : result (list B) :=
  match l with
  | [] => Ok []
  | x :: l' => y <- f x ;; ys <- mapM f l' ;; Ok (y :: ys)
  end.

(** ** The Python built-ins the module relies on *)

Definition dict_lookup (k : string) (d : pydict) : option pyval :=
  snd <$> List.find (fun kv => String.eqb (fst kv) k) d.

(** [hash(v)] as far as set and dictionary membership is concerned. *)
Definition hash_of (v : pyval) : result hashable :=
  match v with
  | VNone => Ok HNone
  | VBool b => Ok (HInt (if b then 1 else 0))
  | VInt z => Ok (HInt z)
  | VStr s => Ok (HStr s)
  | VList _ | VDict _ => Raise TypeError
  end.

Fixpoint chars (s : string) : list string :=
  match s with
  | EmptyString => []
  | String c s' => String c EmptyString :: chars s'
  end.

(** [iter(v)]: the elements a [for] loop or a comprehension sees. *)
Definition py_iter (v : pyval) : result (list pyval) :=
  match v with
  | VList l => Ok l
  | VStr s => Ok (VStr <$> chars s)
  | VDict d => Ok ((fun kv => VStr (fst kv)) <$> d)
  | VNone | VBool _ | VInt _ => Raise TypeError
  end.

(** [len(v)]. *)
Definition py_len (v : pyval) : result nat :=
  match v with
  | VList l => Ok (List.length l)
  | VStr s => Ok (String.length s)
  | VDict d => Ok (List.length d)
  | VNone | VBool _ | VInt _ => Raise TypeError
  end.

(** [v[k]] for a string key [k]: only a mapping can be indexed by a string. *)
Definition py_getitem (v : pyval) (k : string) : result pyval :=
  match v with
  | VDict d =>
      match dict_lookup k d with
      | Some x => Ok x
      | None => Raise (KeyError (VStr k))
      end
  | _ => Raise TypeError
  end.

(** [v.items()]: only a mapping has the method. *)
Definition py_items (v : pyval) : result (list (string * pyval)) :=
  match v with
  | VDict d => Ok d
  | _ => Raise AttributeError
  end.

(** [d.get(k)] on a dictionary with string keys, for an arbitrary key. *)
Definition dict_get (d : pydict) (k : pyval) : result pyval :=
  h <- hash_of k ;;
  match h with
  | HStr s => Ok (default VNone (dict_lookup s d))
  | _ => Ok VNone
  end.

(** [d.get(k, dflt)] for a string key. *)
Definition get_default (d : pydict) (k : string) (dflt : pyval) : pyval :=
  default dflt (dict_lookup k d).

(** [x in s] for a set [s]. *)
Definition py_in_set (x : pyval) (s : gset hashable) : result bool :=
  h <- hash_of x ;; Ok (bool_decide (h ∈ s)).

(** [set(l)] for the elements [l] of an iterable. *)
Definition py_set (l : list pyval) : result (gset hashable) :=
  hs <- mapM hash_of l ;; Ok (list_to_set hs).

Definition is_substring (s t : string) : bool :=
  match String.index 0 s t with
  | Some _ => true
  | None => false
  end.

Definition is_VStr (s : string) (v : pyval) : bool :=
  match v with
  | VStr t => String.eqb s t
  | _ => false
  end.

(** [s in v] for a string [s]: membership in a list, substring of a string,
    key of a dictionary. *)
Definition str_in (s : string) (v : pyval) : result bool :=
  match v with
  | VList l => Ok (existsb (is_VStr s) l)
  | VStr t => Ok (is_substring s t)
  | VDict d => Ok (existsb (fun kv => String.eqb s (fst kv)) d)
  | VNone | VBool _ | VInt _ => Raise TypeError
  end.

(** [s[n:]]. *)
Fixpoint str_drop (n : nat) (s : string) : string :=
  match n, s with
  | O, _ => s
  | S n', String _ s' => str_drop n' s'
  | S _, EmptyString => EmptyString
  end.

(** [s.split(" ")]: split at every single space; the empty string gives one
    empty piece. *)
Fixpoint split_space (s : string) : list string :=
  match s with
  | EmptyString => [EmptyString]
  | String c s' =>
      if Ascii.eqb c " " then EmptyString :: split_space s'
      else match split_space s' with
           | piece :: pieces => String c piece :: pieces
           | [] => [String c EmptyString]
           end
  end.

(** ["\n".join(l)]. *)
Fixpoint join_nl (l : list string) : string :=
  match l with
  | [] => EmptyString
  | [s] => s
  | s :: l' => s ++ String "010" (join_nl l')
  end.

Fixpoint insert_sorted (z : Z) (l : list Z) : list Z :=
  match l with
  | [] => [z]
  | y :: l' => if Z.leb z y then z :: l else y :: insert_sorted z l'
  end.

(** [sorted(s)] for a set of integers. *)
Definition sorted (s : gset Z) : list Z :=
  foldr insert_sorted [] (elements s).

(** ** URN prefixes and alias tables (class attributes) *)

Module TargetOrganizationsT.
Definition URN : string := "urn:mace:surfnet.nl:surfnet.nl:sab:organizationCode:".
Definition institutions : list Z := [1; 2; 3; 4; 9; 14; 18; 19; 22; 23; 24].
Definition service_providers : list Z := [11; 26].
Definition international_partners : list Z := [13].
Definition colo_providers : list Z := [6; 10].
Definition other : list Z :=
  [5; 7; 8; 11; 12; 15; 16; 17; 20; 21; 25; 27; 28; 29; 30; 31; 32; 100].
Definition valid : list (string * list Z) :=
  [("institutions", institutions);
   ("service_providers", service_providers);
   ("international_partners", international_partners);
   ("colo_providers", colo_providers);
   ("other", other)].
End TargetOrganizationsT.

Module SABRolesT.
Definition URN : string := "urn:mace:surfnet.nl:surfnet.nl:sab:role:".
Definition infrabeheerder : string := "Infrabeheerder".
Definition infraverantwoordelijke : string := "Infraverantwoordelijke".
Definition superuserro : string := "SuperuserRO".
Definition valid : list (string * string) :=
  [("infrabeheerder", infrabeheerder);
   ("infraverantwoordelijke", infraverantwoordelijke);
   ("Infrabeheerder", infrabeheerder);
   ("Infraverantwoordelijke", infraverantwoordelijke);
   ("SuperuserRO", superuserro);
   ("superuserro", superuserro)].
End SABRolesT.

Module TeamsT.
Definition URN : string := "urn:collab:group:surfteams.nl:nl:surfnet:diensten:".
Definition admins : string := "automation-admins".
Definition changes : string := "network-changes".
Definition fls : string := "noc-fls".
Definition lir : string := "network-lir".
Definition noc : string := "noc-engineers".
Definition readonly : string := "automation-read-only".
Definition superuserro : string := "noc_superuserro_team_for_netwerkdashboard".
Definition support : string := "customersupport".
Definition ten : string := "ten".
Definition valid : list (string * string) :=
  [("admins", admins);
   ("automation-admins", admins);
   ("automation-read-only", readonly);
   ("customersupport", support);
   ("fls", fls);
   ("klantsupport", support);
   ("lir", lir);
   ("network-changes", changes);
   ("network-lir", lir);
   ("noc", noc);
   ("noc-engineers", noc);
   ("noc-fls", fls);
   ("readonly", readonly);
   ("superuserro", superuserro);
   ("support", support);
   ("ten", ten)].
End TeamsT.

Module OrganizationGUIDT.
Definition URN : string := "urn:mace:surfnet.nl:surfnet.nl:sab:organizationGUID:".
Definition valid : gset hashable := {[HStr "path"; HStr "query"; HStr "json"]}.
End OrganizationGUIDT.

(** [table[key]] for a class table with string keys and an arbitrary key. *)
Definition table_getitem {V : Type} (table : list (string * V)) (key : pyval)
  : result V :=
  h <- hash_of key ;;
  match h with
  | HStr s =>
      match List.find (fun kv => String.eqb (fst kv) s) table with
      | Some kv => Ok (snd kv)
      | None => Raise (KeyError key)
      end
  | _ => Raise (KeyError key)
  end.

(** ** UserAttributes: the view over the claims *)

Module UserAttributes.

(** The wrapped [oauth_attrs] dictionary. *)
Definition t : Type := pydict.

Definition active (self : t) : pyval := get_default self "active" (VBool false).

Definition authenticating_authority (self : t) : pyval :=
  get_default self "authenticating_authority" (VStr "").

Definition display_name (self : t) : pyval :=
  get_default self "display_name" (VStr "").

Definition principal_name (self : t) : pyval :=
  get_default self "edu_person_principal_name" (VStr "").

Definition email (self : t) : pyval := get_default self "email" (VStr "").

Definition memberships (self : t) : pyval :=
  get_default self "edumember_is_member_of" (VList []).

Definition entitlements (self : t) : pyval :=
  get_default self "eduperson_entitlement" (VList []).

(** [{urn[length:] for urn in urns if urn.startswith(prefix)}] with
    [length = len(prefix)]; [startswith] is a method of strings only. *)
Fixpoint strip_prefix (prefix : string) (urns : list pyval) : result (gset string) :=
  match urns with
  | [] => Ok ∅
  | VStr urn :: urns' =>
      rest <- strip_prefix prefix urns' ;;
      if String.prefix prefix urn
      then Ok ({[str_drop (String.length prefix) urn]} ∪ rest)
      else Ok rest
  | _ :: _ => Raise AttributeError
  end.

Definition roles (self : t) : result (gset string) :=
  urns <- py_iter (entitlements self) ;; strip_prefix SABRolesT.URN urns.

Definition scopes (self : t) : result (gset hashable) :=
  match dict_lookup "scope" self with
  | Some (VList l) => py_set l
  | _ =>
      match get_default self "scope" (VStr "") with
      | VStr s => Ok (list_to_set (HStr <$> split_space s))
      | _ => Raise AttributeError
      end
  end.

Definition teams (self : t) : result (gset string) :=
  urns <- py_iter (memberships self) ;; strip_prefix TeamsT.URN urns.

Definition organization_codes (self : t) : result (gset string) :=
  urns <- py_iter (entitlements self) ;; strip_prefix TargetOrganizationsT.URN urns.

Definition organization_guids (self : t) : result (gset string) :=
  urns <- py_iter (entitlements self) ;; strip_prefix OrganizationGUIDT.URN urns.

Definition user_name (self : t) : pyval :=
  match dict_lookup "user_name" self with
  | Some v => v
  | None =>
      match dict_lookup "unspecified_id" self with
      | Some _ => get_default self "unspecified_id" (VStr "")
      | None => VStr ""
      end
  end.

End UserAttributes.

(** ** The request, as far as the conditions and the evaluator read it

    [json] is the parsed body, [VNone] when the request carries none. *)

Record request : Type := {
  endpoint : option string;
  base_url : string;
  method : string;
  view_args : pydict;
  args : pydict;
  json : pyval
}.

(** ** Conditions *)

(** The [where] of an [OrganizationGUID]; the constructor's assertion admits
    these three strings only. *)
Inductive location : Type := Path | Query | Json.

(** A condition object, with the attributes its constructor sets. *)
Inductive condition : Type :=
| TargetOrganizations (target_organizations : gset Z)
| SABRoles (roles : gset string)
| Teams (teams : gset string)
| Scopes (scopes : gset hashable)
| AnyOf (conditions : list condition)
| AllOf (conditions : list condition)
| OrganizationGUID (where_ : location) (param : pyval).

(** [bool(a & b)] for two sets. *)
Definition intersects `{Countable A} (a b : gset A) : bool :=
  bool_decide (a ∩ b ≠ ∅).

(** A set of strings and a set of integers as Python sets. *)
Definition str_set (s : gset string) : gset hashable := set_map HStr s.
Definition int_set (s : gset Z) : gset hashable := set_map HInt s.

(** [True in (c.test(...) for c in conditions)]: the generator is consumed
    up to the first [True]. *)
Fixpoint True_in {A : Type} (test : A -> result bool) (cs : list A) : result bool :=
  match cs with
  | [] => Ok false
  | c :: cs' =>
      b <- test c ;; if b then Ok true else True_in test cs'
  end.

(** [False not in (c.test(...) for c in conditions)]: the generator is
    consumed up to the first [False]. *)
Fixpoint False_not_in {A : Type} (test : A -> result bool) (cs : list A) : result bool :=
  match cs with
  | [] => Ok true
  | c :: cs' =>
      b <- test c ;; if b then False_not_in test cs' else Ok false
  end.

Definition OrganizationGUID_test (where_ : location) (param : pyval)
    (user_attributes : UserAttributes.t) (current_request : request) : result bool :=
  match where_ with
  | Path =>
      v <- dict_get (view_args current_request) param ;;
      guids <- UserAttributes.organization_guids user_attributes ;;
      py_in_set v (str_set guids)
  | Query =>
      v <- dict_get (args current_request) param ;;
      guids <- UserAttributes.organization_guids user_attributes ;;
      py_in_set v (str_set guids)
  | Json =>
      match json current_request with
      | VNone => Ok true
      | VDict d =>
          v <- dict_get d param ;;
          guids <- UserAttributes.organization_guids user_attributes ;;
          py_in_set v (str_set guids)
      | _ => Raise AttributeError
      end
  end.

(** [condition.test(user_attributes, current_request)], by the class of the
    condition. *)
Fixpoint test (c : condition) (user_attributes : UserAttributes.t)
    (current_request : request) {struct c} : result bool :=
  match c with
  | TargetOrganizations target_organizations =>
      codes <- UserAttributes.organization_codes user_attributes ;;
      Ok (intersects (str_set codes) (int_set target_organizations))
  | SABRoles roles =>
      mine <- UserAttributes.roles user_attributes ;;
      Ok (intersects mine roles)
  | Teams teams =>
      mine <- UserAttributes.teams user_attributes ;;
      Ok (intersects mine teams)
  | Scopes scopes =>
      mine <- UserAttributes.scopes user_attributes ;;
      Ok (intersects mine scopes)
  | AnyOf conditions =>
      True_in (fun c' => test c' user_attributes current_request) conditions
  | AllOf conditions =>
      False_not_in (fun c' => test c' user_attributes current_request) conditions
  | OrganizationGUID where_ param =>
      OrganizationGUID_test where_ param user_attributes current_request
  end.

(** ** Rules and verdicts *)

(** An entry of [AccessControl.rules]: the tuple
    [(endpoint, http_methods, checker)], the first two as found in the
    definition. *)
Record rule : Type := {
  endpoint_pattern : pyval;
  http_methods : pyval;
  checker : condition
}.

(** The outcome of [is_allowed] as its caller sees it: a plain return, or
    the [Forbidden] exception with its description. *)
Inductive verdict : Type :=
| Allow
| Deny (reason : string).

Definition VALID_HTTP_METHODS : gset hashable :=
  {[HStr "*"; HStr "DELETE"; HStr "PATCH"; HStr "GET"; HStr "HEAD"; HStr "POST"; HStr "PUT"]}.

Definition location_of (w : pyval) : option location :=
  match w with
  | VStr s =>
      if String.eqb s "path" then Some Path
      else if String.eqb s "query" then Some Query
      else if String.eqb s "json" then Some Json
      else None
  | _ => None
  end.

Definition location_name (l : location) : string :=
  match l with
  | Path => "path"
  | Query => "query"
  | Json => "json"
  end.

(** [current_request.endpoint or current_request.base_url]. *)
Definition request_endpoint (r : request) : string :=
  match endpoint r with
  | Some EmptyString | None => base_url r
  | Some e => e
  end.

Section Engine.

(** Library functions the module calls and does not define:
    [fnmatch name pat] is [fnmatch.fnmatch(name, pat)]; [repr v] is the
    built-in [repr] of a value; [repr_set s] is the text Python prints for
    a set with the members [s] (the order of the members in that text is
    the interpreter's). *)
Variable fnmatch : string -> string -> bool.
Variable repr : pyval -> string.
Variable repr_set : gset hashable -> string.

(** [str(v)], as an f-string formats a value. *)
Definition py_str (v : pyval) : string :=
  match v with
  | VStr s => s
  | _ => repr v
  end.

(** *** [__str__] of the condition classes *)

Fixpoint str (c : condition) : string :=
  match c with
  | TargetOrganizations target_organizations =>
      "CODE in " ++ TargetOrganizationsT.URN
      ++ "CODE in eduperson_entitlements should be one of "
      ++ repr (VList (VInt <$> sorted target_organizations))
  | SABRoles roles =>
      "ROLE in " ++ SABRolesT.URN
      ++ "ROLE in eduperson_entitlements should be one of "
      ++ repr_set (str_set roles)
  | Teams teams =>
      "TEAM in " ++ TeamsT.URN ++ "TEAM should be one of " ++ repr_set (str_set teams)
  | Scopes scopes =>
      "Scope must be one of the following: " ++ repr_set scopes
  | AnyOf conditions =>
      "Any of the following conditions should apply:" ++ String "010"
        (join_nl (str <$> conditions))
  | AllOf conditions =>
      "All of the following conditions should apply:" ++ String "010"
        (join_nl (str <$> conditions))
  | OrganizationGUID where_ param =>
      "Parameter " ++ py_str param ++ " in the request " ++ location_name where_
      ++ " should be in your organization GUID ('" ++ OrganizationGUIDT.URN ++ "')"
  end.

(** *** [__init__] of the condition classes *)

(** [reduce(set.union, (set(self.valid[option]) for option in options))];
    [reduce] without an initial value refuses an empty iterable. *)
Definition TargetOrganizations_init (options : pyval) : result condition :=
  opts <- py_iter options ;;
  groups <- mapM (table_getitem TargetOrganizationsT.valid) opts ;;
  match groups with
  | [] => Raise TypeError
  | g :: gs =>
      Ok (TargetOrganizations (foldl (∪) (list_to_set g) (list_to_set <$> gs)))
  end.

Definition SABRoles_init (options : pyval) : result condition :=
  opts <- py_iter options ;;
  names <- mapM (table_getitem SABRolesT.valid) opts ;;
  Ok (SABRoles (list_to_set names)).

Definition Teams_init (options : pyval) : result condition :=
  opts <- py_iter options ;;
  names <- mapM (table_getitem TeamsT.valid) opts ;;
  Ok (Teams (list_to_set names)).

Definition Scopes_init (options : pyval) : result condition :=
  opts <- py_iter options ;;
  s <- py_set opts ;;
  Ok (Scopes s).

(** The assertion hashes [options["where"]] to look it up in [valid]; the
    three members of [valid] are the strings [location_of] recognises. *)
Definition OrganizationGUID_init (options : pyval) : result condition :=
  w <- py_getitem options "where" ;;
  _ <- hash_of w ;;
  match location_of w with
  | Some where_ =>
      param <- py_getitem options "parameter" ;;
      Ok (OrganizationGUID where_ param)
  | None =>
      Raise (AssertionError ("The 'where' option should be one of "
                             ++ repr_set OrganizationGUIDT.valid))
  end.

(** [AbstractCondition.concrete_condition(name, options)]: the class is
    looked up by name among the subclasses of [AbstractCondition], then
    called on the options. [AnyOf] and [AllOf] build their children from
    [options.items()], in order. *)
Fixpoint concrete_condition (name : string) (options : pyval) {struct options}
  : result condition :=
  let children :=
    match options with
    | VDict d =>
        (fix build (entries : list (string * pyval)) : result (list condition) :=
           match entries with
           | [] => Ok []
           | (name', suboptions) :: entries' =>
               c <- concrete_condition name' suboptions ;;
               cs <- build entries' ;;
               Ok (c :: cs)
           end) d
    | _ => Raise AttributeError
    end in
  if String.eqb name "TargetOrganizations" then TargetOrganizations_init options
  else if String.eqb name "SABRoles" then SABRoles_init options
  else if String.eqb name "Teams" then Teams_init options
  else if String.eqb name "Scopes" then Scopes_init options
  else if String.eqb name "AnyOf" then cs <- children ;; Ok (AnyOf cs)
  else if String.eqb name "AllOf" then cs <- children ;; Ok (AllOf cs)
  else if String.eqb name "OrganizationGUID" then OrganizationGUID_init options
  else Raise (KeyError (VStr name)).

(** *** [AccessControl.__init__] *)

(** [try: ... except KeyError: raise handler]. *)
Definition except_KeyError {A : Type} (m : result A) (handler : exn) : result A :=
  match m with
  | Raise (KeyError _) => Raise handler
  | _ => m
  end.

(** The two handlers around the construction of a checker:
    [except KeyError as exc] with the message [f"Missing option {exc}."]
    and [except AssertionError as exc] with the message [str(exc)]. *)
Definition except_option_errors (counter : nat) (definition : pyval)
    (m : result condition) : result condition :=
  match m with
  | Raise (KeyError key) =>
      Raise (InvalidRuleDefinition ("Missing option " ++ repr key ++ ".") counter definition)
  | Raise (AssertionError msg) =>
      Raise (InvalidRuleDefinition msg counter definition)
  | _ => m
  end.

(** [for http_method in http_methods: if http_method not in
    self.VALID_HTTP_METHODS: raise ...]. *)
Fixpoint check_methods (counter : nat) (definition : pyval) (ms : list pyval)
  : result unit :=
  match ms with
  | [] => Ok tt
  | http_method :: ms' =>
      b <- py_in_set http_method VALID_HTTP_METHODS ;;
      if b then check_methods counter definition ms'
      else Raise (InvalidRuleDefinition
                    ("Not a valid HTTP method '" ++ py_str http_method ++ "'")
                    counter definition)
  end.

(** The [else] branch: [for name, options in conditions.items()], each
    turn assigning [checker]. *)
Fixpoint assign_checker (counter : nat) (definition : pyval)
    (entries : list (string * pyval)) (checker : option condition)
  : result (option condition) :=
  match entries with
  | [] => Ok checker
  | (name, options) :: entries' =>
      c <- except_option_errors counter definition (concrete_condition name options) ;;
      assign_checker counter definition entries' (Some c)
  end.

(** One turn of the loop over the rule definitions. [checker] is a local
    variable of [__init__]: it is unbound before the first assignment and
    keeps its value from one turn to the next. The turn returns the rule
    it appends and the value of [checker] after it. *)
Definition compile_rule (counter : nat) (definition : pyval)
    (checker : option condition) : result (rule * option condition) :=
  endpoint <- except_KeyError (py_getitem definition "endpoint")
                (InvalidRuleDefinition "Missing endpoint" counter definition) ;;
  http_methods <- except_KeyError (py_getitem definition "methods")
                    (InvalidRuleDefinition "Missing HTTP methods" counter definition) ;;
  ms <- py_iter http_methods ;;
  _ <- check_methods counter definition ms ;;
  conditions <- except_KeyError (py_getitem definition "conditions")
                  (InvalidRuleDefinition "Missing conditions or options" counter definition) ;;
  n <- py_len conditions ;;
  checker' <-
    (if Nat.ltb 1 n
     then c <- except_option_errors counter definition
                 (concrete_condition "AllOf" conditions) ;;
          Ok (Some c)
     else entries <- py_items conditions ;;
          assign_checker counter definition entries checker) ;;
  match checker' with
  | Some c =>
      Ok ({| endpoint_pattern := endpoint; http_methods := http_methods; checker := c |},
          checker')
  | None => Raise UnboundLocalError
  end.

(** [for counter, definition in enumerate(...)], from [counter] on, with
    the rules appended so far. *)
Fixpoint compile_rules (counter : nat) (definitions : list pyval)
    (rules : list rule) (checker : option condition) : result (list rule) :=
  match definitions with
  | [] => Ok rules
  | definition :: definitions' =>
      rc <- compile_rule counter definition checker ;;
      compile_rules (S counter) definitions' (rules ++ [fst rc]) (snd rc)
  end.

(** [AccessControl(security_definitions)]: the rules of the new object, or
    the exception the constructor raises. [security_definitions] is [None]
    or a dictionary. *)
Definition AccessControl (security_definitions : option pydict) : result (list rule) :=
  match security_definitions with
  | None => Ok []
  | Some d =>
      match dict_lookup "rules" d with
      | None => Ok []
      | Some rules => definitions <- py_iter rules ;; compile_rules 0 definitions [] None
      end
  end.

(** *** [AccessControl.is_allowed] *)

(** The two tests of the loop over the rules for one rule. *)
Definition rule_matches (endpoint method : string) (r : rule) : result bool :=
  match endpoint_pattern r with
  | VStr pat =>
      if fnmatch endpoint pat
      then star <- str_in "*" (http_methods r) ;;
           if star then Ok true else str_in method (http_methods r)
      else Ok false
  | _ => Raise TypeError
  end.

(** The list [matches] after the loop. *)
Fixpoint matching (endpoint method : string) (rules : list rule)
  : result (list condition) :=
  match rules with
  | [] => Ok []
  | r :: rules' =>
      m <- rule_matches endpoint method r ;;
      rest <- matching endpoint method rules' ;;
      Ok (if m then checker r :: rest else rest)
  end.

Definition is_allowed (rules : list rule) (current_user : UserAttributes.t)
    (current_request : request) : result unit :=
  match rules with
  | [] => Raise (Forbidden "No security rules found")
  | _ :: _ =>
      let endpoint := request_endpoint current_request in
      let method := method current_request in
      matches <- matching endpoint method rules ;;
      if Nat.ltb 1 (List.length matches) then
        b <- True_in (fun c => test c current_user current_request) matches ;;
        if b then Ok tt else Raise (Forbidden (join_nl (str <$> matches)))
      else
        match matches with
        | [checker] =>
            b <- test checker current_user current_request ;;
            if b then Ok tt else Raise (Forbidden (str checker))
        | _ =>
            Raise (Forbidden ("No rules matched endpoint " ++ endpoint
                              ++ " and HTTP method " ++ method))
        end
  end.

(** [decide]: the verdict a caller reads off [is_allowed]. Any other
    exception is no verdict and stays an exception. *)
Definition decide (rules : list rule) (view : UserAttributes.t) (req : request)
  : result verdict :=
  match is_allowed rules view req with
  | Ok _ => Ok Allow
  | Raise (Forbidden reason) => Ok (Deny reason)
  | Raise e => Raise e
  end.

End Engine.

(** ** One concrete choice of the library functions

    Used to run the definitions on examples: [glob] implements the wildcards
    [*] and [?] of [fnmatch] (no bracket expressions), [repr] prints values
    the way Python does for strings without quotes or escapes, and [repr_set]
    lists the members of a set in the order of [elements]. *)

Module Sample.

Fixpoint glob (pat name : list ascii) {struct pat} : bool :=
  match pat with
  | [] => match name with [] => true | _ :: _ => false end
  | c :: pat' =>
      if Ascii.eqb c "*" then
        (fix star (name : list ascii) : bool :=
           glob pat' name
           || match name with
              | [] => false
              | _ :: name' => star name'
              end) name
      else
        match name with
        | [] => false
        | d :: name' => (Ascii.eqb c "?" || Ascii.eqb c d) && glob pat' name'
        end
  end.

Definition fnmatch (name pat : string) : bool :=
  glob (list_ascii_of_string pat) (list_ascii_of_string name).

Definition quoted (s : string) : string := "'" ++ s ++ "'".

Fixpoint join_comma (l : list string) : string :=
  match l with
  | [] => EmptyString
  | [s] => s
  | s :: l' => s ++ ", " ++ join_comma l'
  end.

Fixpoint repr (v : pyval) : string :=
  match v with
  | VNone => "None"
  | VBool b => if b then "True" else "False"
  | VInt z => pretty z
  | VStr s => quoted s
  | VList l => "[" ++ join_comma (List.map repr l) ++ "]"
  | VDict d =>
      "{" ++ join_comma (List.map (fun kv => quoted (fst kv) ++ ": " ++ repr (snd kv)) d)
      ++ "}"
  end.

Definition value_of (h : hashable) : pyval :=
  match h with
  | HNone => VNone
  | HInt z => VInt z
  | HStr s => VStr s
  end.

Definition repr_set (s : gset hashable) : string :=
  match elements s with
  | [] => "set()"
  | l => "{" ++ join_comma (repr ∘ value_of <$> l) ++ "}"
  end.

End Sample.

(** ** Predicates and sample data used in the statements below *)

(** A test that comes back with a boolean instead of raising. *)
Definition returns (c : condition) (view : UserAttributes.t) (req : request) : Prop :=
  exists b, test c view req = Ok b.

Definition sample_request : request :=
  {| endpoint := Some "orders.get"; base_url := "http://localhost/orders";
     method := "GET"; view_args := []; args := []; json := VNone |}.

Definition sample_claims : UserAttributes.t :=
  [("scope", VStr "read write");
   ("eduperson_entitlement",
    VList [VStr "urn:mace:surfnet.nl:surfnet.nl:sab:role:Infraverantwoordelijke"]);
   ("edumember_is_member_of",
    VList [VStr "urn:collab:group:surfteams.nl:nl:surfnet:diensten:noc-engineers"])].

(** Whether a verdict is [Allow]; the reason of a [Deny] is forgotten. *)
Definition allowed (v : result verdict) : result bool :=
  match v with
  | Ok Allow => Ok true
  | Ok (Deny _) => Ok false
  | Raise e => Raise e
  end.

Definition admin_request : request :=
  {| endpoint := Some "admin.delete"; base_url := "http://localhost/admin";
     method := "DELETE"; view_args := []; args := []; json := VNone |}.

(** Two rules that both match [admin_request]: one asks for a role, the
    other for a team. *)
Definition admin_rules : list rule :=
  [ {| endpoint_pattern := VStr "admin.*"; http_methods := VList [VStr "DELETE"];
       checker := SABRoles {["Infrabeheerder"]} |};
    {| endpoint_pattern := VStr "admin.delete"; http_methods := VList [VStr "*"];
       checker := Teams {["noc-engineers"]} |} ].

(** A user of institution 1. *)
Definition institution_claims : UserAttributes.t :=
  [("eduperson_entitlement",
    VList [VStr "urn:mace:surfnet.nl:surfnet.nl:sab:organizationCode:1"])].

(** A user of one organization, and a request whose JSON body names it. *)
Definition customer_claims : UserAttributes.t :=
  [("eduperson_entitlement",
    VList [VStr "urn:mace:surfnet.nl:surfnet.nl:sab:organizationGUID:c9b5e717"])].

Definition customer_request : request :=
  {| endpoint := Some "subscriptions.create"; base_url := "http://localhost/subscriptions";
     method := "POST"; view_args := []; args := [];
     json := VDict [("customerId", VStr "c9b5e717")] |}.

(** The children of a combinator, built from the entries of its options. *)
Definition build_children (repr_set : gset hashable -> string)
    (d : list (string * pyval)) : result (list condition) :=
  mapM (fun entry => concrete_condition repr_set (fst entry) (snd entry)) d.

Definition children_of (repr_set : gset hashable -> string) (options : pyval)
  : result (list condition) :=
  match options with
  | VDict d => build_children repr_set d
  | _ => Raise AttributeError
  end.

(** A method of the fixed vocabulary. *)
Definition valid_method (m : pyval) : Prop :=
  exists h, hash_of m = Ok h /\ h ∈ VALID_HTTP_METHODS.

(** A rule definition without endpoint, without methods, without conditions,
    or listing a method outside the vocabulary. *)
Definition defective (d : pydict) : Prop :=
  dict_lookup "endpoint" d = None
  \/ dict_lookup "methods" d = None
  \/ dict_lookup "conditions" d = None
  \/ exists v ms m,
       dict_lookup "methods" d = Some v /\ py_iter v = Ok ms /\ m ∈ ms /\ ~ valid_method m.

(** The methods of a rule definition, when present, are a list of strings. *)
Definition methods_are_strings (d : pydict) : Prop :=
  forall v, dict_lookup "methods" d = Some v -> exists names, v = VList (VStr <$> names).

(** The exceptions that the constructor turns into [InvalidRuleDefinition]. *)
Definition is_option_error (e : exn) : Prop :=
  match e with
  | KeyError _ | AssertionError _ => True
  | _ => False
  end.

(** The methods of a compiled rule are all of the vocabulary. *)
Definition methods_in_vocabulary (r : rule) : Prop :=
  exists ms, py_iter (http_methods r) = Ok ms /\ Forall valid_method ms.

(** A name that a class table does not list. *)
Definition unknown_alias {V : Type} (table : list (string * V)) (name : string) : Prop :=
  List.find (fun kv => String.eqb (fst kv) name) table = None.

(** Sample configurations. *)
Definition read_scope_conditions : pyval := VDict [("Scopes", VList [VStr "read"])].

Definition orders_rule : pyval :=
  VDict [("endpoint", VStr "orders.*"); ("methods", VList [VStr "GET"]);
         ("conditions", read_scope_conditions)].

Definition no_endpoint_rule : pydict :=
  [("methods", VList [VStr "GET"]); ("conditions", read_scope_conditions)].

Definition broken_config : pydict :=
  [("rules", VList [orders_rule; VDict no_endpoint_rule])].

Definition empty_methods_config : pydict :=
  [("rules", VList [VDict [("endpoint", VStr "orders.*"); ("methods", VList []);
                           ("conditions", read_scope_conditions)]])].

Definition empty_group_config : pydict :=
  [("rules", VList [VDict [("endpoint", VStr "orders.*"); ("methods", VList [VStr "GET"]);
                           ("conditions", VDict [("TargetOrganizations", VList [])])];
                    VDict no_endpoint_rule])].

Definition empty_roles_rule : pydict :=
  [("endpoint", VStr "admin.*"); ("methods", VList [VStr "DELETE"]);
   ("conditions", VDict [("SABRoles", VList [])])].

Definition unknown_role_rule : pydict :=
  [("endpoint", VStr "admin.*"); ("methods", VList [VStr "DELETE"]);
   ("conditions", VDict [("AnyOf", VDict [("SABRoles", VList [VStr "root"])])])].

(** ** Further helpers for the statements *)

(** [" ".join(l)]. *)
Fixpoint join_space (l : list string) : string :=
  match l with
  | [] => EmptyString
  | [s] => s
  | s :: l' => s ++ String " " (join_space l')
  end.

Fixpoint has_space (s : string) : bool :=
  match s with
  | EmptyString => false
  | String c s' => Ascii.eqb c " " || has_space s'
  end.

(** The value a class table gives a name, if it lists the name. *)
Definition alias_of {V : Type} (table : list (string * V)) (name : string) : option V :=
  snd <$> List.find (fun kv => String.eqb (fst kv) name) table.

(** The names of the subclasses of [AbstractCondition]. *)
Definition condition_names : list string :=
  ["TargetOrganizations"; "SABRoles"; "Teams"; "Scopes"; "AnyOf"; "AllOf";
   "OrganizationGUID"].

(** The root of a rule with the children [cs]: the condition itself when
    there is one, their [AllOf] when there are more. *)
Definition root_of (cs : list condition) : condition :=
  match cs with
  | [c] => c
  | _ => AllOf cs
  end.

(** A rule keeps the endpoint and the methods of its definition. *)
Definition compiled_from (definition : pyval) (r : rule) : Prop :=
  exists d, definition = VDict d
            /\ dict_lookup "endpoint" d = Some (endpoint_pattern r)
            /\ dict_lookup "methods" d = Some (http_methods r).

(** Further sample rule definitions. *)
Definition role_and_team_rule : pydict :=
  [("endpoint", VStr "admin.*"); ("methods", VList [VStr "DELETE"]);
   ("conditions", VDict [("SABRoles", VList [VStr "infrabeheerder"]);
                         ("Teams", VList [VStr "noc"])])].

Definition no_conditions_rule : pydict :=
  [("endpoint", VStr "status.*"); ("methods", VList [VStr "GET"]);
   ("conditions", VDict [])].

(** Well-formed inputs of the evaluator. *)

Definition is_hashable (v : pyval) : Prop := exists h, hash_of v = Ok h.

(** Claims whose entitlement and membership claims, when present, are lists
    of strings, and whose scope claim, when present, is a string or a list of
    hashable values. *)
Definition valid_claims (claims : UserAttributes.t) : Prop :=
  (forall v, dict_lookup "eduperson_entitlement" claims = Some v ->
             exists l, v = VList (VStr <$> l))
  /\ (forall v, dict_lookup "edumember_is_member_of" claims = Some v ->
                exists l, v = VList (VStr <$> l))
  /\ (forall v, dict_lookup "scope" claims = Some v ->
                (exists s, v = VStr s) \/ (exists l, v = VList l /\ Forall is_hashable l)).

(** A request whose path, query and body parameters are hashable values,
    with no body or a JSON object as body. *)
Definition valid_request (req : request) : Prop :=
  Forall (fun kv => is_hashable (snd kv)) (view_args req)
  /\ Forall (fun kv => is_hashable (snd kv)) (args req)
  /\ (json req = VNone
      \/ exists d, json req = VDict d /\ Forall (fun kv => is_hashable (snd kv)) d).

(** Every [OrganizationGUID] of the condition names its parameter by a
    hashable value. *)
Fixpoint hashable_params (c : condition) : Prop :=
  match c with
  | AnyOf cs | AllOf cs =>
      (fix all (cs : list condition) : Prop :=
         match cs with
         | [] => True
         | c' :: cs' => hashable_params c' /\ all cs'
         end) cs
  | OrganizationGUID _ param => is_hashable param
  | _ => True
  end.

(** A rule the evaluator can match: a string as pattern, an iterable as
    methods, and hashable parameter names. *)
Definition matchable (r : rule) : Prop :=
  (exists pat, endpoint_pattern r = VStr pat)
  /\ (exists ms, py_iter (http_methods r) = Ok ms)
  /\ hashable_params (checker r).

Definition guarded_rules : list rule :=
  [ {| endpoint_pattern := VStr "subscriptions.*"; http_methods := VList [VStr "*"];
       checker := AllOf [Scopes {[HStr "write"]};
                         OrganizationGUID Json (VStr "customerId")] |} ].

(** Induction over a condition and the children of its combinators. *)
Fixpoint condition_nested_ind (P : condition -> Prop)
    (Htarget : forall t, P (TargetOrganizations t))
    (Hroles : forall r, P (SABRoles r))
    (Hteams : forall t, P (Teams t))
    (Hscopes : forall s, P (Scopes s))
    (Hany : forall cs, Forall P cs -> P (AnyOf cs))
    (Hall : forall cs, Forall P cs -> P (AllOf cs))
    (Hguid : forall w p, P (OrganizationGUID w p))
    (c : condition) {struct c} : P c :=
  let children :=
    fix children (cs : list condition) : Forall P cs :=
      match cs with
      | [] => List.Forall_nil P
      | c' :: cs' =>
          List.Forall_cons P c' cs'
            (condition_nested_ind P Htarget Hroles Hteams Hscopes Hany Hall Hguid c')
            (children cs')
      end in
  match c with
  | TargetOrganizations t => Htarget t
  | SABRoles r => Hroles r
  | Teams t => Hteams t
  | Scopes s => Hscopes s
  | AnyOf cs => Hany cs (children cs)
  | AllOf cs => Hall cs (children cs)
  | OrganizationGUID w p => Hguid w p
  end.

Definition read_rule : rule :=
  {| endpoint_pattern := VStr "orders.*"; http_methods := VList [VStr "GET"];
     checker := Scopes {[HStr "read"]} |}.

Definition no_method_rule : rule :=
  {| endpoint_pattern := VStr "orders.*"; http_methods := VList [];
     checker := Scopes {[HStr "read"]} |}.

(** ** OIDCUserModel (fastapi.py): the claims as a dictionary with properties *)

(** [re.split("[ ,]", s)]: split at every space and every comma. *)
Fixpoint split_space_comma (s : string) : list string :=
  match s with
  | EmptyString => [EmptyString]
  | String c s' =>
      if Ascii.eqb c " " || Ascii.eqb c "," then EmptyString :: split_space_comma s'
      else match split_space_comma s' with
           | piece :: pieces => String c piece :: pieces
           | [] => [String c EmptyString]
           end
  end.

Fixpoint has_comma (s : string) : bool :=
  match s with
  | EmptyString => false
  | String c s' => Ascii.eqb c "," || has_comma s'
  end.

Module OIDCUserModel.

Definition t : Type := pydict.

Definition user_name (self : t) : result pyval :=
  match dict_lookup "user_name" self with
  | Some _ => py_getitem (VDict self) "user_name"
  | None =>
      match dict_lookup "unspecified_id" self with
      | Some _ => py_getitem (VDict self) "unspecified_id"
      | None => Ok (VStr "")
      end
  end.

Definition display_name (self : t) : pyval := get_default self "display_name" (VStr "").

Definition principal_name (self : t) : pyval :=
  get_default self "eduperson_principal_name" (VStr "").

Definition memberships (self : t) : pyval :=
  get_default self "edumember_is_member_of" (VList []).

Definition teams (self : t) : result (gset string) :=
  urns <- py_iter (memberships self) ;;
  UserAttributes.strip_prefix "urn:collab:group:surfteams.nl:nl:surfnet:diensten:" urns.

Definition entitlements (self : t) : pyval :=
  get_default self "eduperson_entitlement" (VList []).

Definition roles (self : t) : result (gset string) :=
  urns <- py_iter (entitlements self) ;;
  UserAttributes.strip_prefix "urn:mace:surfnet.nl:surfnet.nl:sab:role:" urns.

Definition organization_codes (self : t) : result (gset string) :=
  urns <- py_iter (entitlements self) ;;
  UserAttributes.strip_prefix "urn:mace:surfnet.nl:surfnet.nl:sab:organizationCode:" urns.

Definition organization_guids (self : t) : result (gset string) :=
  urns <- py_iter (entitlements self) ;;
  UserAttributes.strip_prefix "urn:mace:surfnet.nl:surfnet.nl:sab:organizationGUID:" urns.

(** [re.split] refuses a value that is not a string with a [TypeError]. *)
Definition scopes (self : t) : result (gset hashable) :=
  match dict_lookup "scope" self with
  | Some (VList l) => py_set l
  | _ =>
      match get_default self "scope" (VStr "") with
      | VStr s => Ok (list_to_set (HStr <$> split_space_comma s))
      | _ => Raise TypeError
      end
  end.

End OIDCUserModel.

(** ** Client credentials (oauth_credentials.py)

    [app.config] is the state; the HTTP session is an oracle [post] from the
    call to its response, and every function returns the configuration it
    leaves, the calls it made and its result. *)

Module OAuthCredentials.

Definition AUTH_RESOURCE_SERVER : string := "auth_resource_server".

(** [d[k] = v]: the value of an existing key is replaced in place, a new key
    goes to the end. *)
Fixpoint dict_set (k : string) (v : pyval) (d : pydict) : pydict :=
  match d with
  | [] => [(k, v)]
  | (k0, v0) :: d' =>
      if String.eqb k0 k then (k, v) :: d' else (k0, v0) :: dict_set k v d'
  end.

(** The arguments of [req_session.post]. *)
Record call : Type := {
  call_url : pyval;
  call_data : pydict;
  call_auth : pyval * pyval;
  call_timeout : Z
}.

(** What the code reads of a response: [response.ok], and [response.json()],
    which is [None] here when the body is not JSON and the method raises. *)
Record response : Type := {
  ok : bool;
  json_body : option pyval
}.

Inductive failure : Type :=
| Unauthorized (description : string)
| RequestException
| PythonError (e : exn).

Record outcome (A : Type) : Type := {
  config : pydict;
  calls : list call;
  returned : failure + A
}.
Arguments config {A} _.
Arguments calls {A} _.
Arguments returned {A} _.

(** What [add_client_credentials_token_header] returns: the client itself,
    or [ApiClientProxy(client, headers)]. *)
Inductive client_or_proxy (C : Type) : Type :=
| Client (client : C)
| ApiClientProxy (client : C) (headers : list (string * string)).
Arguments Client {C} client.
Arguments ApiClientProxy {C} client headers.

(** [AUTH_RESOURCE_SERVER in app.config and "access_token" in
    app.config[AUTH_RESOURCE_SERVER]]. *)
Definition has_access_token (app_config : pydict) : result bool :=
  match dict_lookup AUTH_RESOURCE_SERVER app_config with
  | None => Ok false
  | Some server => str_in "access_token" server
  end.

Section Session.

(** [post c] is the response of the session to the call, [None] when the
    session raises instead. [repr] is the built-in. *)
Variable post : call -> option response.
Variable repr : pyval -> string.

Definition obtain_client_credentials_token (app_config : pydict)
    (oauth2_token_url oauth2_client_id oauth2_secret : pyval) (force : bool)
  : outcome unit :=
  match (if force then Ok false else has_access_token app_config) with
  | Raise e => {| config := app_config; calls := []; returned := inl (PythonError e) |}
  | Ok true => {| config := app_config; calls := []; returned := inr tt |}
  | Ok false =>
      let server := [("oauth2_token_url", oauth2_token_url);
                     ("oauth2_client_id", oauth2_client_id);
                     ("oauth2_secret", oauth2_secret)] in
      let config1 := dict_set AUTH_RESOURCE_SERVER (VDict server) app_config in
      let c := {| call_url := oauth2_token_url;
                  call_data := [("grant_type", VStr "client_credentials")];
                  call_auth := (oauth2_client_id, oauth2_secret);
                  call_timeout := 5 |} in
      match post c with
      | None => {| config := config1; calls := [c]; returned := inl RequestException |}
      | Some response =>
          match json_body response with
          | None =>
              {| config := config1; calls := [c]; returned := inl RequestException |}
          | Some json =>
              if negb (ok response) then
                {| config := config1; calls := [c];
                   returned := inl (Unauthorized
                                      ("Response for obtaining access_token "
                                       ++ py_str repr json)) |}
              else
                match py_getitem json "access_token" with
                | Raise e =>
                    {| config := config1; calls := [c];
                       returned := inl (PythonError e) |}
                | Ok token =>
                    {| config := dict_set AUTH_RESOURCE_SERVER
                                   (VDict (dict_set "access_token" token server)) config1;
                       calls := [c]; returned := inr tt |}
                end
          end
      end
  end.

Definition add_client_credentials_token_header {C : Type} (client : C)
    (app_config : pydict) : result (client_or_proxy C) :=
  b <- has_access_token app_config ;;
  if b then
    server <- py_getitem (VDict app_config) AUTH_RESOURCE_SERVER ;;
    access_token <- py_getitem server "access_token" ;;
    Ok (ApiClientProxy client [("Authorization", "bearer " ++ py_str repr access_token)])
  else Ok (Client client).

Definition refresh_client_credentials_token (app_config : pydict) : outcome unit :=
  match
    (server <- py_getitem (VDict app_config) AUTH_RESOURCE_SERVER ;;
     url <- py_getitem server "oauth2_token_url" ;;
     id <- py_getitem server "oauth2_client_id" ;;
     secret <- py_getitem server "oauth2_secret" ;;
     Ok (url, id, secret))
  with
  | Raise e => {| config := app_config; calls := []; returned := inl (PythonError e) |}
  | Ok (url, id, secret) => obtain_client_credentials_token app_config url id secret true
  end.

End Session.

End OAuthCredentials.

(** Two token endpoints: one that grants a token, one that refuses. *)
Definition granting_endpoint (c : OAuthCredentials.call) : option OAuthCredentials.response :=
  Some {| OAuthCredentials.ok := true;
          OAuthCredentials.json_body := Some (VDict [("access_token", VStr "t0k3n")]) |}.

Definition refusing_endpoint (c : OAuthCredentials.call) : option OAuthCredentials.response :=
  Some {| OAuthCredentials.ok := false;
          OAuthCredentials.json_body := Some (VDict [("error", VStr "invalid_client")]) |}.

(** A configuration that already holds a token. *)
Definition config_with_token : pydict :=
  [("auth_resource_server",
    VDict [("oauth2_token_url", VStr "https://auth/token");
           ("oauth2_client_id", VStr "client"); ("oauth2_secret", VStr "secret");
           ("access_token", VStr "old")])].

(** A request whose JSON body is an array, and claims whose scope is
    [None]; both with the role Infraverantwoordelijke at hand. *)
Definition array_body_request : request :=
  {| endpoint := Some "admin.delete"; base_url := "http://localhost/admin";
     method := "DELETE"; view_args := []; args := [];
     json := VList [VStr "c9b5e717"] |}.

Definition null_scope_claims : UserAttributes.t :=
  [("scope", VNone);
   ("eduperson_entitlement",
    VList [VStr "urn:mace:surfnet.nl:surfnet.nl:sab:role:Infraverantwoordelijke"])].

Definition guid_rule : rule :=
  {| endpoint_pattern := VStr "admin.*"; http_methods := VList [VStr "DELETE"];
     checker := OrganizationGUID Json (VStr "customerId") |}.

Definition role_rule : rule :=
  {| endpoint_pattern := VStr "admin.*"; http_methods := VList [VStr "DELETE"];
     checker := SABRoles {["Infraverantwoordelijke"]} |}.

(** * Properties *)

(** ** The definitions on a few inputs *)

Example scopes_list_or_string :
  UserAttributes.scopes [("scope", VList [VStr "read"; VStr "write"])]
  = UserAttributes.scopes [("scope", VStr "read write")].
Proof. vm_compute. reflexivity. Qed.

Example glob_orders :
  Sample.fnmatch "orders.get" "orders.*" = true
  /\ Sample.fnmatch "orders.update" "orders.*" = true
  /\ Sample.fnmatch "invoices.get" "orders.*" = false.
Proof. by vm_compute. Qed.

Example read_scope_scenario :
  AccessControl Sample.repr Sample.repr_set (Some [("rules", VList [orders_rule])])
  = Ok [ {| endpoint_pattern := VStr "orders.*"; http_methods := VList [VStr "GET"];
            checker := Scopes {[HStr "read"]} |} ]
  /\ decide Sample.fnmatch Sample.repr Sample.repr_set
       [ {| endpoint_pattern := VStr "orders.*"; http_methods := VList [VStr "GET"];
            checker := Scopes {[HStr "read"]} |} ]
       sample_claims sample_request = Ok Allow
  /\ decide Sample.fnmatch Sample.repr Sample.repr_set
       [ {| endpoint_pattern := VStr "orders.*"; http_methods := VList [VStr "GET"];
            checker := Scopes {[HStr "read"]} |} ]
       [("scope", VStr "write")] sample_request
     = Ok (Deny "Scope must be one of the following: {'read'}").
Proof. split_and!; vm_compute; reflexivity. Qed.

(** ** Results and the two membership loops *)

Lemma rbind_Ok {A B : Type} (m : result A) (k : A -> result B) (b : B) :
  rbind m k = Ok b <-> exists a, m = Ok a /\ k a = Ok b.
Proof.
  destruct m as [a|e]; simpl; split.
  - intros H. by exists a.
  - by intros (a' & [= ->] & H).
  - done.
  - by intros (a' & [=] & _).
Qed.

Section Loops.
Context {A : Type} (f : A -> result bool).

Lemma True_in_returns (cs : list A) :
  Forall (fun c => exists b, f c = Ok b) cs -> exists b, True_in f cs = Ok b.
Proof.
  induction 1 as [|c cs [b Hb] _ IH]; simpl; [by eexists|].
  rewrite Hb. simpl. destruct b; [by eexists | exact IH].
Qed.

Lemma True_in_true (cs : list A) :
  Forall (fun c => exists b, f c = Ok b) cs ->
  True_in f cs = Ok true <-> Exists (fun c => f c = Ok true) cs.
Proof.
  induction 1 as [|c cs [b Hb] _ IH]; simpl.
  - rewrite Exists_nil. split; [discriminate | tauto].
  - rewrite Exists_cons, Hb. simpl. destruct b.
    + split; [by left | done].
    + rewrite IH. split; [by right | by intros [[=]|?]].
Qed.

(** Without any assumption: a [True] result was produced by a child. *)
Lemma True_in_true_inv (cs : list A) :
  True_in f cs = Ok true -> Exists (fun c => f c = Ok true) cs.
Proof.
  induction cs as [|c cs IH]; simpl; [discriminate|].
  destruct (f c) as [[]|e] eqn:Hc; simpl; intros H.
  - by left.
  - right. by apply IH.
  - discriminate.
Qed.

Lemma True_in_false (cs : list A) :
  True_in f cs = Ok false <-> Forall (fun c => f c = Ok false) cs.
Proof.
  induction cs as [|c cs IH]; simpl.
  - split; [constructor | done].
  - rewrite Forall_cons. destruct (f c) as [[]|e]; simpl.
    + split; [discriminate | by intros [[=] _]].
    + rewrite IH. tauto.
    + split; [discriminate | by intros [[=] _]].
Qed.

Lemma False_not_in_returns (cs : list A) :
  Forall (fun c => exists b, f c = Ok b) cs -> exists b, False_not_in f cs = Ok b.
Proof.
  induction 1 as [|c cs [b Hb] _ IH]; simpl; [by eexists|].
  rewrite Hb. simpl. destruct b; [exact IH | by eexists].
Qed.

Lemma False_not_in_true (cs : list A) :
  Forall (fun c => exists b, f c = Ok b) cs ->
  False_not_in f cs = Ok true <-> ~ Exists (fun c => f c = Ok false) cs.
Proof.
  induction 1 as [|c cs [b Hb] _ IH]; simpl.
  - rewrite Exists_nil. tauto.
  - rewrite Exists_cons, Hb. simpl. destruct b.
    + rewrite IH. split; [by intros ? [[=]|?] | tauto].
    + split; [discriminate | intros H; destruct H; by left].
Qed.

(** Without any assumption: [False not in ...] is true exactly when every
    child tests true. *)
Lemma False_not_in_all_true (cs : list A) :
  False_not_in f cs = Ok true <-> Forall (fun c => f c = Ok true) cs.
Proof.
  induction cs as [|c cs IH]; simpl.
  - split; [constructor | done].
  - rewrite Forall_cons. destruct (f c) as [[]|e]; simpl.
    + rewrite IH. tauto.
    + split; [discriminate | by intros [[=] _]].
    + split; [discriminate | by intros [[=] _]].
Qed.

End Loops.

(** ** Combinators *)

(** Claim C6, amended. For children whose tests all return a boolean on
    the view and the request (none raises): [AnyOf.test] returns a boolean,
    which is [True] if and only if some child tests true; [AllOf.test]
    returns a boolean, which is [True] if and only if no child tests false.
    With no children [AnyOf.test] is [False] and [AllOf.test] is [True]. *)
Theorem combinator_semantics (cs : list condition) (view : UserAttributes.t)
    (req : request) :
  Forall (fun c => returns c view req) cs ->
  (exists b, test (AnyOf cs) view req = Ok b)
  /\ (test (AnyOf cs) view req = Ok true
      <-> Exists (fun c => test c view req = Ok true) cs)
  /\ (exists b, test (AllOf cs) view req = Ok b)
  /\ (test (AllOf cs) view req = Ok true
      <-> ~ Exists (fun c => test c view req = Ok false) cs)
  /\ test (AnyOf []) view req = Ok false
  /\ test (AllOf []) view req = Ok true.
Proof.
  intros Hret. simpl.
  split; [by apply True_in_returns|].
  split; [by apply True_in_true|].
  split; [by apply False_not_in_returns|].
  split; [by apply False_not_in_true|].
  done.
Qed.

Lemma combinator_semantics_witness :
  let cs := [SABRoles {["Infrabeheerder"]}; Scopes {[HStr "read"]}] in
  Forall (fun c => returns c sample_claims sample_request) cs
  /\ test (AnyOf cs) sample_claims sample_request = Ok true
  /\ test (AllOf cs) sample_claims sample_request <> Ok true.
Proof.
  intros cs.
  assert (Hret : Forall (fun c => returns c sample_claims sample_request) cs).
  { repeat constructor; [exists false | exists true]; vm_compute; reflexivity. }
  destruct (combinator_semantics cs sample_claims sample_request Hret)
    as (_ & Hany & _ & Hall & _).
  split; [exact Hret|]. split.
  - apply Hany. right. left. vm_compute. reflexivity.
  - intros H. apply Hall in H. apply H. left. vm_compute. reflexivity.
Defined.

(** ** The evaluator *)

Section Evaluator.

Variable fnmatch : string -> string -> bool.
Variable repr : pyval -> string.
Variable repr_set : gset hashable -> string.

(** Claim C8. With no rules at all, [is_allowed] raises [Forbidden] with the
    description "No security rules found" for every user and request: the
    verdict is [Deny] with that reason. *)
Theorem empty_ruleset_denies (view : UserAttributes.t) (req : request) :
  is_allowed fnmatch repr repr_set [] view req
    = Raise (Forbidden "No security rules found")
  /\ decide fnmatch repr repr_set [] view req = Ok (Deny "No security rules found").
Proof. split; reflexivity. Qed.

(** Claim C10. [AccessControl(None)], and [AccessControl] of a mapping
    without the key "rules", raise nothing and leave the rule list empty;
    every verdict of that engine is [Deny] with the reason
    "No security rules found". *)
Theorem missing_configuration_denies (security_definitions : option pydict)
    (view : UserAttributes.t) (req : request) :
  security_definitions = None
  \/ (exists d, security_definitions = Some d /\ dict_lookup "rules" d = None) ->
  AccessControl repr repr_set security_definitions = Ok []
  /\ forall rules,
       AccessControl repr repr_set security_definitions = Ok rules ->
       decide fnmatch repr repr_set rules view req
         = Ok (Deny "No security rules found").
Proof.
  intros Hcfg.
  assert (Hempty : AccessControl repr repr_set security_definitions = Ok []).
  { destruct Hcfg as [-> | (d & -> & Hd)]; simpl; [done | by rewrite Hd]. }
  split; [exact Hempty|].
  intros rules Hrules. rewrite Hempty in Hrules. by injection Hrules as <-.
Qed.

(** The match of a rule does not look at its checker. *)
Lemma rule_matches_checker (e m : string) (p ms : pyval) (c1 c2 : condition) :
  rule_matches fnmatch e m {| endpoint_pattern := p; http_methods := ms; checker := c1 |}
  = rule_matches fnmatch e m {| endpoint_pattern := p; http_methods := ms; checker := c2 |}.
Proof. reflexivity. Qed.

(** Claim C5. Two rules with one endpoint pattern and one method list, with
    the conditions [c1] and [c2], give the same outcome (Allow, Deny, or the
    same exception) as the single rule whose condition is [AnyOf] of [c1] and
    [c2]. *)
Theorem two_rules_as_any_of (p ms : pyval) (c1 c2 : condition)
    (view : UserAttributes.t) (req : request) :
  allowed (decide fnmatch repr repr_set
             [ {| endpoint_pattern := p; http_methods := ms; checker := c1 |};
               {| endpoint_pattern := p; http_methods := ms; checker := c2 |} ]
             view req)
  = allowed (decide fnmatch repr repr_set
               [ {| endpoint_pattern := p; http_methods := ms;
                    checker := AnyOf [c1; c2] |} ]
               view req).
Proof.
  unfold decide, is_allowed. simpl matching.
  rewrite (rule_matches_checker _ _ p ms c2 c1).
  rewrite (rule_matches_checker _ _ p ms (AnyOf [c1; c2]) c1).
  destruct (rule_matches _ _ _ _) as [[]|e]; simpl; [|done|by destruct e].
  destruct (test c1 view req) as [[]|e1]; simpl; [done| |by destruct e1].
  destruct (test c2 view req) as [[]|e2]; simpl; [done|done|by destruct e2].
Qed.

(** Reordering the rules reorders the candidates. *)
Lemma matching_perm (e m : string) (rules rules' : list rule) :
  Permutation rules rules' ->
  forall ms, matching fnmatch e m rules = Ok ms ->
  exists ms', matching fnmatch e m rules' = Ok ms' /\ Permutation ms ms'.
Proof.
  induction 1 as [|r l l' _ IH|r1 r2 l|l1 l2 l3 _ IH1 _ IH2]; intros ms Hms.
  - exists ms. by split.
  - simpl in *. destruct (rule_matches fnmatch e m r) as [b|]; [|done].
    simpl in *. destruct (matching fnmatch e m l) as [rest|]; [|done].
    simpl in *. injection Hms as <-.
    destruct (IH rest eq_refl) as (rest' & -> & Hperm). simpl.
    eexists. split; [done|]. destruct b; [by constructor | done].
  - simpl in *.
    destruct (rule_matches fnmatch e m r1) as [b1|]; simpl in *;
      destruct (rule_matches fnmatch e m r2) as [b2|]; simpl in *; try done.
    destruct (matching fnmatch e m l) as [rest|]; simpl in *; [|done].
    injection Hms as <-. eexists. split; [done|].
    destruct b1, b2; try done. apply perm_swap.
  - destruct (IH1 ms Hms) as (ms2 & Hms2 & Hp12).
    destruct (IH2 ms2 Hms2) as (ms3 & Hms3 & Hp23).
    exists ms3. split; [done | by etrans].
Qed.

Lemma allowed_true (v : result verdict) : allowed v = Ok true <-> v = Ok Allow.
Proof. destruct v as [[]|]; simpl; split; congruence. Qed.

(** The verdict in terms of the candidates, when their tests return. *)
Lemma decide_by_candidates (rules : list rule) (view : UserAttributes.t)
    (req : request) (ms : list condition) :
  matching fnmatch (request_endpoint req) (method req) rules = Ok ms ->
  Forall (fun c => returns c view req) ms ->
  (decide fnmatch repr repr_set rules view req = Ok Allow
   <-> Exists (fun c => test c view req = Ok true) ms)
  /\ exists b, allowed (decide fnmatch repr repr_set rules view req) = Ok b.
Proof.
  intros Hms Hret. destruct rules as [|r rules].
  - injection Hms as <-. rewrite Exists_nil. split; [by split | by exists false].
  - unfold decide, is_allowed. cbv zeta. rewrite Hms. simpl rbind.
    destruct ms as [|c1 [|c2 ms]].
    + rewrite Exists_nil. split; [by split | by exists false].
    + apply Forall_cons in Hret as [[b Hb] _]. simpl. rewrite Hb. simpl.
      rewrite Exists_cons, Exists_nil, Hb.
      destruct b; simpl; (split; [split; [intros ?|intros [?|?]]; by auto | by eexists]).
    + change (Nat.ltb 1 (List.length (c1 :: c2 :: ms))) with true. cbv iota.
      pose proof (True_in_true (fun c => test c view req) _ Hret) as Htrue.
      destruct (True_in_returns (fun c => test c view req) _ Hret) as [b Hb].
      rewrite <- Htrue, Hb. simpl.
      destruct b; simpl; (split; [split; by auto | by eexists]).
Qed.

(** Claim C4, amended. When more than one rule matches the endpoint and
    accepts the method, and the tests of these candidates all return a
    boolean (none raises): the verdict is [Allow] if and only if some
    candidate tests true; when every candidate tests false the verdict is
    [Deny] with the descriptions of all candidates joined by newlines; and
    any permutation of the rules gives the same Allow/Deny outcome. *)
Theorem multiple_candidates_verdict (rules : list rule) (view : UserAttributes.t)
    (req : request) (ms : list condition) :
  matching fnmatch (request_endpoint req) (method req) rules = Ok ms ->
  (1 < List.length ms)%nat ->
  Forall (fun c => returns c view req) ms ->
  (decide fnmatch repr repr_set rules view req = Ok Allow
   <-> Exists (fun c => test c view req = Ok true) ms)
  /\ (Forall (fun c => test c view req = Ok false) ms ->
      decide fnmatch repr repr_set rules view req
        = Ok (Deny (join_nl (str repr repr_set <$> ms))))
  /\ (exists b, allowed (decide fnmatch repr repr_set rules view req) = Ok b)
  /\ forall rules',
       Permutation rules rules' ->
       allowed (decide fnmatch repr repr_set rules' view req)
       = allowed (decide fnmatch repr repr_set rules view req).
Proof.
  intros Hms Hlen Hret.
  destruct (decide_by_candidates rules view req ms Hms Hret) as [Hallow Hverdict].
  split; [exact Hallow|]. split; [|split; [exact Hverdict|]].
  - intros Hfalse. apply True_in_false in Hfalse.
    destruct rules as [|r rules]; [injection Hms as <-; simpl in Hlen; lia|].
    unfold decide, is_allowed. cbv zeta. rewrite Hms. simpl rbind.
    apply Nat.ltb_lt in Hlen. rewrite Hlen, Hfalse. reflexivity.
  - intros rules' Hperm.
    destruct (matching_perm _ _ _ _ Hperm ms Hms) as (ms' & Hms' & Hpms).
    assert (Hret' : Forall (fun c => returns c view req) ms')
      by (by rewrite <- Hpms).
    destruct (decide_by_candidates rules' view req ms' Hms' Hret')
      as [Hallow' [b' Hb']].
    destruct Hverdict as [b Hb]. rewrite Hb, Hb'. f_equal.
    assert (Hiff : b' = true <-> b = true).
    { split; intros ->.
      - apply allowed_true, Hallow', (Permutation_Exists (symmetry Hpms)),
          Hallow, allowed_true in Hb'. congruence.
      - apply allowed_true, Hallow, (Permutation_Exists Hpms),
          Hallow', allowed_true in Hb. congruence. }
    destruct b, b'; intuition congruence.
Qed.

End Evaluator.

Lemma missing_configuration_denies_witness :
  AccessControl Sample.repr Sample.repr_set (Some [("debug", VBool true)]) = Ok []
  /\ decide Sample.fnmatch Sample.repr Sample.repr_set [] sample_claims sample_request
       = Ok (Deny "No security rules found").
Proof.
  destruct (missing_configuration_denies Sample.fnmatch Sample.repr Sample.repr_set
              (Some [("debug", VBool true)]) sample_claims sample_request)
    as [Hempty Hdeny].
  - right. exists [("debug", VBool true)]. split; reflexivity.
  - split; [exact Hempty | exact (Hdeny [] Hempty)].
Defined.

Lemma multiple_candidates_verdict_witness :
  let ms := [SABRoles {["Infrabeheerder"]}; Teams {["noc-engineers"]}] in
  matching Sample.fnmatch (request_endpoint admin_request) (method admin_request)
    admin_rules = Ok ms
  /\ (1 < List.length ms)%nat
  /\ Forall (fun c => returns c sample_claims admin_request) ms
  /\ decide Sample.fnmatch Sample.repr Sample.repr_set admin_rules sample_claims
       admin_request = Ok Allow.
Proof.
  intros ms.
  assert (Hms : matching Sample.fnmatch (request_endpoint admin_request)
                  (method admin_request) admin_rules = Ok ms)
    by (vm_compute; reflexivity).
  assert (Hlen : (1 < List.length ms)%nat) by (simpl; lia).
  assert (Hret : Forall (fun c => returns c sample_claims admin_request) ms).
  { repeat constructor; [exists false | exists true]; vm_compute; reflexivity. }
  split; [exact Hms|]. split; [exact Hlen|]. split; [exact Hret|].
  apply (multiple_candidates_verdict Sample.fnmatch Sample.repr Sample.repr_set
           admin_rules sample_claims admin_request ms Hms Hlen Hret).
  right. left. vm_compute. reflexivity.
Defined.

(** ** Leaf conditions *)

Lemma str_int_disjoint (a : gset string) (b : gset Z) : str_set a ∩ int_set b = ∅.
Proof.
  unfold str_set, int_set. apply set_eq. intros x.
  rewrite elem_of_intersection, !elem_of_map.
  split; [|by intros ?%not_elem_of_empty].
  by intros [(s & -> & _) (z & [=] & _)].
Qed.

(** Claim C1. The members of [organization_codes] are strings and the
    members of [target_organizations] are integers, so the two sets never
    meet: [TargetOrganizations.test] returns true for no condition, view and
    request. The user of institution 1 is refused by the condition built
    from the group [institutions], which lists code 1. *)
Theorem target_organizations_never_match :
  (forall (target : gset Z) (view : UserAttributes.t) (req : request),
     test (TargetOrganizations target) view req <> Ok true)
  /\ TargetOrganizations_init (VList [VStr "institutions"])
     = Ok (TargetOrganizations (list_to_set TargetOrganizationsT.institutions))
  /\ UserAttributes.organization_codes institution_claims = Ok {["1"]}
  /\ 1 ∈ TargetOrganizationsT.institutions
  /\ test (TargetOrganizations (list_to_set TargetOrganizationsT.institutions))
       institution_claims sample_request = Ok false.
Proof.
  split; [|split; [|split; [|split]]].
  - intros target view req. simpl.
    destruct (UserAttributes.organization_codes view) as [codes|e]; simpl; [|done].
    unfold intersects. rewrite str_int_disjoint.
    rewrite bool_decide_eq_false_2; [done | by intros H; apply H].
  - vm_compute. reflexivity.
  - vm_compute. reflexivity.
  - set_solver.
  - vm_compute. reflexivity.
Qed.

Lemma py_in_str_set (x : pyval) (G : gset string) :
  py_in_set x (str_set G) = Ok true <-> exists s, x = VStr s /\ s ∈ G.
Proof.
  unfold py_in_set, str_set. split.
  - intros (h & Hh & Hin)%rbind_Ok. injection Hin as Hin.
    apply bool_decide_eq_true in Hin. apply elem_of_map in Hin as (s & -> & Hs).
    destruct x as [| [] | | | |]; simplify_eq/=. by exists s.
  - intros (s & -> & Hs). simpl. f_equal. apply bool_decide_eq_true.
    apply elem_of_map. by exists s.
Qed.

(** Claim C7, amended. For an [OrganizationGUID] condition with
    [where = "json"], by the value of [request.json]: when it is [None] (no
    JSON body, or a body that is the JSON value null) the test returns true,
    whatever the view; when it is a JSON object the test returns true if and
    only if the object's value for the parameter is a string that is a member
    of the view's [organization_guids]; when it is any other JSON value (an
    array, a string, a number, a boolean) the test raises [AttributeError]. *)
Theorem json_body_pass_through (param : pyval) (view : UserAttributes.t)
    (req : request) :
  (json req = VNone -> test (OrganizationGUID Json param) view req = Ok true)
  /\ (forall d, json req = VDict d ->
        (test (OrganizationGUID Json param) view req = Ok true
         <-> exists (s : string) (G : gset string),
               dict_get d param = Ok (VStr s)
               /\ UserAttributes.organization_guids view = Ok G
               /\ s ∈ G))
  /\ (json req <> VNone -> (forall d, json req <> VDict d) ->
      test (OrganizationGUID Json param) view req = Raise AttributeError).
Proof.
  cbn [test OrganizationGUID_test]. split; [by intros ->|]. split.
  - intros d ->. split.
    + intros (v & Hv & (G & HG & Hin)%rbind_Ok)%rbind_Ok.
      apply py_in_str_set in Hin as (s & -> & Hs). by exists s, G.
    + intros (s & G & -> & -> & Hs). simpl. apply py_in_str_set. by exists s.
  - intros Hnone Hdict. destruct (json req) as [| | | | |d]; try done.
    by destruct (Hdict d).
Qed.

Lemma json_body_pass_through_witness :
  json sample_request = VNone
  /\ test (OrganizationGUID Json (VStr "customerId")) sample_claims sample_request
     = Ok true
  /\ json customer_request = VDict [("customerId", VStr "c9b5e717")]
  /\ test (OrganizationGUID Json (VStr "customerId")) customer_claims customer_request
     = Ok true
  /\ test (OrganizationGUID Json (VStr "customerId")) sample_claims customer_request
     <> Ok true.
Proof.
  destruct (json_body_pass_through (VStr "customerId") sample_claims sample_request)
    as [Hnone _].
  destruct (json_body_pass_through (VStr "customerId") customer_claims customer_request)
    as (_ & Hmember & _).
  destruct (json_body_pass_through (VStr "customerId") sample_claims customer_request)
    as (_ & Hother & _).
  split; [reflexivity|]. split; [exact (Hnone eq_refl)|]. split; [reflexivity|]. split.
  - apply (Hmember _ eq_refl). exists "c9b5e717", {["c9b5e717"]}.
    split; [reflexivity|]. split; [vm_compute; reflexivity | by apply elem_of_singleton].
  - intros H. apply (Hother _ eq_refl) in H as (s & G & _ & HG & Hs).
    assert (Hnone' : UserAttributes.organization_guids sample_claims = Ok ∅)
      by (vm_compute; reflexivity).
    rewrite Hnone' in HG. injection HG as <-. by apply not_elem_of_empty in Hs.
Defined.

(** ** The view over the claims *)

Lemma strip_prefix_strings (prefix : string) (urns : list string) :
  exists s, UserAttributes.strip_prefix prefix (VStr <$> urns) = Ok s.
Proof.
  induction urns as [|urn urns [s IH]]; [by eexists|].
  rewrite fmap_cons. cbn [UserAttributes.strip_prefix].
  rewrite IH. simpl. destruct (String.prefix prefix urn); by eexists.
Qed.

Lemma get_default_absent (d : pydict) (k : string) (dflt : pyval) :
  dict_lookup k d = None -> get_default d k dflt = dflt.
Proof. unfold get_default. by intros ->. Qed.

(** Claim C2, as the code has it. With no "scope" claim [scopes] is the set
    holding the empty string, not the empty set; a "scope" claim that is
    [None] and an entitlement claim that is [None] make the accessors raise;
    and [active] defaults to [False]. *)
Lemma scopes_of_empty_claims :
  dict_lookup "scope" [] = None
  /\ UserAttributes.scopes [] = Ok {[HStr ""]}
  /\ UserAttributes.scopes [] <> Ok ∅
  /\ UserAttributes.scopes [("scope", VNone)] = Raise AttributeError
  /\ UserAttributes.roles [("eduperson_entitlement", VNone)] = Raise TypeError
  /\ UserAttributes.active [] = VBool false.
Proof.
  split; [reflexivity|]. split; [vm_compute; reflexivity|].
  split; [|split; [reflexivity|split; reflexivity]].
  intros H.
  assert (Hs : UserAttributes.scopes [] = Ok {[HStr ""]}) by (vm_compute; reflexivity).
  assert (Heq : ({[HStr ""]} : gset hashable) = ∅) by congruence.
  assert (Hin : HStr "" ∈ (∅ : gset hashable))
    by (rewrite <- Heq; by apply elem_of_singleton).
  by apply not_elem_of_empty in Hin.
Qed.

(** Claim C2, amended. The accessors that read one claim with a default
    ([active], [authenticating_authority], [display_name], [principal_name],
    [email], [memberships], [entitlements], [user_name]) are total, and give
    their default when the claim is absent: the empty string, the empty list
    for the two list claims, [False] for [active]. [roles], [teams],
    [organization_codes] and [organization_guids] are the empty set when
    their list claim is absent and return a set when it is a list of strings.
    [scopes] returns a set when the scope claim is absent, a string, or a
    list of hashable values. Absent claims fail closed: without the
    entitlement claim no [SABRoles] condition tests true, without the
    membership claim no [Teams] condition does, and without the scope claim
    no [Scopes] condition does unless it lists the empty string. *)
Theorem view_accessors_defaults (claims : UserAttributes.t) :
  (dict_lookup "active" claims = None -> UserAttributes.active claims = VBool false)
  /\ (dict_lookup "authenticating_authority" claims = None ->
      UserAttributes.authenticating_authority claims = VStr "")
  /\ (dict_lookup "display_name" claims = None ->
      UserAttributes.display_name claims = VStr "")
  /\ (dict_lookup "edu_person_principal_name" claims = None ->
      UserAttributes.principal_name claims = VStr "")
  /\ (dict_lookup "email" claims = None -> UserAttributes.email claims = VStr "")
  /\ (dict_lookup "user_name" claims = None ->
      dict_lookup "unspecified_id" claims = None ->
      UserAttributes.user_name claims = VStr "")
  /\ (dict_lookup "edumember_is_member_of" claims = None ->
      UserAttributes.memberships claims = VList []
      /\ UserAttributes.teams claims = Ok ∅)
  /\ (dict_lookup "eduperson_entitlement" claims = None ->
      UserAttributes.entitlements claims = VList []
      /\ UserAttributes.roles claims = Ok ∅
      /\ UserAttributes.organization_codes claims = Ok ∅
      /\ UserAttributes.organization_guids claims = Ok ∅)
  /\ (forall urns,
        dict_lookup "edumember_is_member_of" claims = Some (VList (VStr <$> urns)) ->
        exists s, UserAttributes.teams claims = Ok s)
  /\ (forall urns,
        dict_lookup "eduperson_entitlement" claims = Some (VList (VStr <$> urns)) ->
        (exists s, UserAttributes.roles claims = Ok s)
        /\ (exists s, UserAttributes.organization_codes claims = Ok s)
        /\ (exists s, UserAttributes.organization_guids claims = Ok s))
  /\ (dict_lookup "scope" claims = None
      \/ (exists s, dict_lookup "scope" claims = Some (VStr s))
      \/ (exists l hs, dict_lookup "scope" claims = Some (VList l)
                       /\ mapM hash_of l = Ok hs) ->
      exists s, UserAttributes.scopes claims = Ok s)
  /\ (dict_lookup "eduperson_entitlement" claims = None ->
      forall roles req, test (SABRoles roles) claims req = Ok false)
  /\ (dict_lookup "edumember_is_member_of" claims = None ->
      forall teams req, test (Teams teams) claims req = Ok false)
  /\ (dict_lookup "scope" claims = None ->
      forall scopes req, HStr "" ∉ scopes -> test (Scopes scopes) claims req = Ok false).
Proof.
  repeat match goal with |- _ /\ _ => split end.
  - apply get_default_absent.
  - apply get_default_absent.
  - apply get_default_absent.
  - apply get_default_absent.
  - apply get_default_absent.
  - unfold UserAttributes.user_name. by intros -> ->.
  - intros H. unfold UserAttributes.teams, UserAttributes.memberships.
    by rewrite (get_default_absent _ _ _ H).
  - intros H.
    unfold UserAttributes.roles, UserAttributes.organization_codes,
      UserAttributes.organization_guids, UserAttributes.entitlements.
    by rewrite (get_default_absent _ _ _ H).
  - intros urns H. unfold UserAttributes.teams, UserAttributes.memberships, get_default.
    rewrite H. simpl. apply strip_prefix_strings.
  - intros urns H.
    unfold UserAttributes.roles, UserAttributes.organization_codes,
      UserAttributes.organization_guids, UserAttributes.entitlements, get_default.
    rewrite H. simpl. repeat split; apply strip_prefix_strings.
  - unfold UserAttributes.scopes, get_default.
    intros [-> | [(s & ->) | (l & hs & -> & Hhs)]]; simpl; [by eexists .. |].
    unfold py_set. rewrite Hhs. by eexists.
  - intros H roles req. simpl.
    unfold UserAttributes.roles, UserAttributes.entitlements.
    rewrite (get_default_absent _ _ _ H). simpl. unfold intersects.
    rewrite bool_decide_eq_false_2; [done|]. intros Hne. apply Hne.
    apply intersection_empty_l_L.
  - intros H teams req. simpl.
    unfold UserAttributes.teams, UserAttributes.memberships.
    rewrite (get_default_absent _ _ _ H). simpl. unfold intersects.
    rewrite bool_decide_eq_false_2; [done|]. intros Hne. apply Hne.
    apply intersection_empty_l_L.
  - intros H scopes req Hempty. simpl.
    unfold UserAttributes.scopes, get_default. rewrite H. simpl. unfold intersects.
    rewrite bool_decide_eq_false_2; [done|]. intros Hne. apply Hne.
    apply set_eq. intros x. rewrite elem_of_intersection.
    split; [|by intros ?%not_elem_of_empty].
    intros [Hx Hin]. apply elem_of_union in Hx as [Hx|Hx].
    + apply elem_of_singleton in Hx. by subst.
    + by apply not_elem_of_empty in Hx.
Qed.

Lemma view_accessors_defaults_witness :
  dict_lookup "eduperson_entitlement" [("scope", VStr "read write")] = None
  /\ UserAttributes.roles [("scope", VStr "read write")] = Ok ∅
  /\ dict_lookup "active" [("scope", VStr "read write")] = None
  /\ UserAttributes.active [("scope", VStr "read write")] = VBool false
  /\ exists s, UserAttributes.scopes [("scope", VStr "read write")] = Ok s.
Proof.
  destruct (view_accessors_defaults [("scope", VStr "read write")])
    as (Hactive & _ & _ & _ & _ & _ & _ & Hent & _ & _ & Hscope & _).
  split; [reflexivity|]. split; [exact (proj1 (proj2 (Hent eq_refl)))|].
  split; [reflexivity|]. split; [exact (Hactive eq_refl)|].
  apply Hscope. right. left. by exists "read write".
Defined.

(** ** The rule compiler *)

Section Compiler.

Variable repr : pyval -> string.
Variable repr_set : gset hashable -> string.

Lemma concrete_condition_unfold (name : string) (options : pyval) :
  concrete_condition repr_set name options =
    if String.eqb name "TargetOrganizations" then TargetOrganizations_init options
    else if String.eqb name "SABRoles" then SABRoles_init options
    else if String.eqb name "Teams" then Teams_init options
    else if String.eqb name "Scopes" then Scopes_init options
    else if String.eqb name "AnyOf" then cs <- children_of repr_set options ;; Ok (AnyOf cs)
    else if String.eqb name "AllOf" then cs <- children_of repr_set options ;; Ok (AllOf cs)
    else if String.eqb name "OrganizationGUID" then OrganizationGUID_init repr_set options
    else Raise (KeyError (VStr name)).
Proof.
  destruct options as [| | | | |d]; try reflexivity.
  assert (H : (fix build (entries : list (string * pyval)) : result (list condition) :=
                 match entries with
                 | [] => Ok []
                 | (name', suboptions) :: entries' =>
                     c <- concrete_condition repr_set name' suboptions ;;
                     cs <- build entries' ;;
                     Ok (c :: cs)
                 end) d = build_children repr_set d).
  { induction d as [|[n o] d IH]; [reflexivity|].
    unfold build_children in *. cbn [mapM fst snd]. rewrite <- IH. reflexivity. }
  unfold children_of. rewrite <- H. reflexivity.
Qed.

Lemma concrete_condition_SABRoles (options : pyval) :
  concrete_condition repr_set "SABRoles" options = SABRoles_init options.
Proof. by rewrite concrete_condition_unfold. Qed.

Lemma concrete_condition_Teams (options : pyval) :
  concrete_condition repr_set "Teams" options = Teams_init options.
Proof. by rewrite concrete_condition_unfold. Qed.

Lemma concrete_condition_Scopes (options : pyval) :
  concrete_condition repr_set "Scopes" options = Scopes_init options.
Proof. by rewrite concrete_condition_unfold. Qed.

Lemma concrete_condition_OrganizationGUID (options : pyval) :
  concrete_condition repr_set "OrganizationGUID" options
  = OrganizationGUID_init repr_set options.
Proof. by rewrite concrete_condition_unfold. Qed.

Lemma concrete_condition_AnyOf (options : pyval) :
  concrete_condition repr_set "AnyOf" options
  = (cs <- children_of repr_set options ;; Ok (AnyOf cs)).
Proof. by rewrite concrete_condition_unfold. Qed.

Lemma concrete_condition_AllOf (options : pyval) :
  concrete_condition repr_set "AllOf" options
  = (cs <- children_of repr_set options ;; Ok (AllOf cs)).
Proof. by rewrite concrete_condition_unfold. Qed.

Lemma except_KeyError_Ok {A : Type} (m : result A) (handler : exn) (a : A) :
  except_KeyError m handler = Ok a -> m = Ok a.
Proof. by destruct m as [|[]]. Qed.

Lemma check_methods_Ok (counter : nat) (definition : pyval) (ms : list pyval) :
  check_methods repr counter definition ms = Ok tt -> Forall valid_method ms.
Proof.
  induction ms as [|m ms IH]; [constructor|]. simpl. unfold py_in_set.
  destruct (hash_of m) as [h|] eqn:Hh; simpl; [|done].
  destruct (bool_decide (h ∈ VALID_HTTP_METHODS)) eqn:Hin; [|done].
  intros H. constructor; [|by apply IH].
  exists h. split; [done | by apply bool_decide_eq_true in Hin].
Qed.

Lemma check_methods_strings (counter : nat) (definition : pyval) (names : list string) :
  check_methods repr counter definition (VStr <$> names) = Ok tt
  \/ exists msg,
       check_methods repr counter definition (VStr <$> names)
       = Raise (InvalidRuleDefinition msg counter definition).
Proof.
  induction names as [|name names IH]; [by left|].
  rewrite fmap_cons. cbn [check_methods]. unfold py_in_set. simpl.
  destruct (bool_decide (HStr name ∈ VALID_HTTP_METHODS)); [exact IH|].
  right. by eexists.
Qed.

(** What a successful turn of the loop found in the definition. *)
Lemma compile_rule_Ok_inv (counter : nat) (definition : pyval)
    (chk : option condition) (rc : rule * option condition) :
  compile_rule repr repr_set counter definition chk = Ok rc ->
  exists d ms,
    definition = VDict d
    /\ dict_lookup "endpoint" d = Some (endpoint_pattern (fst rc))
    /\ dict_lookup "methods" d = Some (http_methods (fst rc))
    /\ is_Some (dict_lookup "conditions" d)
    /\ py_iter (http_methods (fst rc)) = Ok ms
    /\ check_methods repr counter definition ms = Ok tt.
Proof.
  unfold compile_rule.
  intros (e & He%except_KeyError_Ok & H)%rbind_Ok.
  apply rbind_Ok in H as (m & Hm%except_KeyError_Ok & H).
  apply rbind_Ok in H as (ms & Hms & H).
  apply rbind_Ok in H as ([] & Hcheck & H).
  apply rbind_Ok in H as (cs & Hcs%except_KeyError_Ok & H).
  apply rbind_Ok in H as (n & _ & H).
  apply rbind_Ok in H as (chk' & _ & H).
  destruct chk' as [c|]; [|done]. injection H as <-. simpl.
  destruct definition as [| | | | |d]; try done.
  unfold py_getitem in He, Hm, Hcs.
  destruct (dict_lookup "endpoint" d) as [e'|] eqn:Ee; [|done].
  destruct (dict_lookup "methods" d) as [m'|] eqn:Em; [|done].
  destruct (dict_lookup "conditions" d) as [cs'|] eqn:Ec; [|done].
  injection He as ->. injection Hm as ->.
  exists d, ms. by split_and!.
Qed.

Lemma compile_rule_methods (counter : nat) (definition : pyval)
    (chk : option condition) (rc : rule * option condition) :
  compile_rule repr repr_set counter definition chk = Ok rc ->
  methods_in_vocabulary (fst rc).
Proof.
  intros (d & ms & _ & _ & _ & _ & Hms & Hcheck)%compile_rule_Ok_inv.
  exists ms. split; [done | by eapply check_methods_Ok].
Qed.

(** A defective definition stops the loop, whatever [checker] holds. *)
Lemma compile_rule_defective (counter : nat) (d : pydict) (chk : option condition) :
  defective d -> exists e, compile_rule repr repr_set counter (VDict d) chk = Raise e.
Proof.
  intros Hdef.
  destruct (compile_rule repr repr_set counter (VDict d) chk) as [rc|e] eqn:Hrc;
    [exfalso | by exists e].
  apply compile_rule_Ok_inv in Hrc
    as (d' & ms & [= <-] & He & Hm & [cs Hcs] & Hms & Hcheck).
  destruct Hdef as [H|[H|[H|(v & ms' & m & Hv & Hms' & Hin & Hbad)]]];
    try congruence.
  rewrite Hm in Hv. injection Hv as <-. rewrite Hms in Hms'. injection Hms' as <-.
  apply check_methods_Ok in Hcheck. rewrite Forall_forall in Hcheck. auto.
Qed.

(** With methods that are strings, the exception is the structured one,
    whatever [checker] holds. *)
Lemma compile_rule_structured (counter : nat) (d : pydict) :
  defective d -> methods_are_strings d ->
  exists msg, forall chk,
    compile_rule repr repr_set counter (VDict d) chk
    = Raise (InvalidRuleDefinition msg counter (VDict d)).
Proof.
  intros Hdef Hstr.
  destruct (dict_lookup "endpoint" d) as [e|] eqn:He.
  2: { eexists. intros chk. unfold compile_rule. cbn [py_getitem].
       rewrite He. reflexivity. }
  destruct (dict_lookup "methods" d) as [m|] eqn:Hm.
  2: { eexists. intros chk. unfold compile_rule. cbn [py_getitem].
       rewrite He, Hm. reflexivity. }
  destruct (Hstr m Hm) as [names ->].
  destruct (check_methods_strings counter (VDict d) names) as [Hok|[msg Hmsg]].
  2: { exists msg. intros chk. unfold compile_rule. cbn [py_getitem].
       rewrite He, Hm. cbn [except_KeyError rbind py_iter].
       rewrite Hmsg. reflexivity. }
  destruct (dict_lookup "conditions" d) as [cs|] eqn:Hcs.
  2: { eexists. intros chk. unfold compile_rule. cbn [py_getitem].
       rewrite He, Hm. cbn [except_KeyError rbind py_iter].
       rewrite Hok. cbn [rbind]. rewrite Hcs. reflexivity. }
  exfalso.
  destruct Hdef as [H|[H|[H|(v & ms' & m & Hv & Hms' & Hin & Hbad)]]];
    try congruence.
  rewrite Hm in Hv. injection Hv as <-. injection Hms' as <-.
  apply check_methods_Ok in Hok. rewrite Forall_forall in Hok. auto.
Qed.

Lemma compile_rules_raise (definitions : list pyval) :
  forall (i counter : nat) (d : pydict) (rules : list rule) (chk : option condition),
    definitions !! i = Some (VDict d) -> defective d ->
    exists e, compile_rules repr repr_set counter definitions rules chk = Raise e.
Proof.
  induction definitions as [|def defs IH]; intros i counter d rules chk Hi Hdef; [done|].
  cbn [compile_rules]. destruct i as [|i].
  - injection Hi as ->.
    destruct (compile_rule_defective counter d chk Hdef) as [e ->]. by exists e.
  - destruct (compile_rule repr repr_set counter def chk) as [rc|e]; [|by exists e].
    cbn [rbind]. by eapply IH.
Qed.

(** The loop stops at the first definition that does not compile. *)
Lemma compile_rules_first_failure (pre : list pyval) :
  forall (counter : nat) (def : pyval) (post : list pyval) (rules rs : list rule)
         (chk : option condition) (e : exn),
    compile_rules repr repr_set counter pre rules chk = Ok rs ->
    (forall chk', compile_rule repr repr_set (counter + List.length pre) def chk' = Raise e) ->
    compile_rules repr repr_set counter (pre ++ def :: post) rules chk = Raise e.
Proof.
  induction pre as [|def0 pre IH]; intros counter def post rules rs chk e Hpre Hdef.
  - cbn [app compile_rules]. specialize (Hdef chk).
    rewrite Nat.add_0_r in Hdef. by rewrite Hdef.
  - cbn [app compile_rules] in *.
    destruct (compile_rule repr repr_set counter def0 chk) as [rc|]; [|done].
    cbn [rbind] in *. eapply IH; [exact Hpre|].
    intros chk'. specialize (Hdef chk'). cbn [List.length] in Hdef.
    by rewrite Nat.add_succ_r in Hdef.
Qed.

Lemma compile_rules_methods (definitions : list pyval) :
  forall (counter : nat) (rules rs : list rule) (chk : option condition),
    compile_rules repr repr_set counter definitions rules chk = Ok rs ->
    Forall methods_in_vocabulary rules -> Forall methods_in_vocabulary rs.
Proof.
  induction definitions as [|def defs IH]; intros counter rules rs chk Hrs Hrules.
  - by injection Hrs as <-.
  - cbn [compile_rules] in Hrs.
    destruct (compile_rule repr repr_set counter def chk) as [rc|] eqn:Hrc; [|done].
    cbn [rbind] in Hrs. eapply IH; [exact Hrs|].
    apply Forall_app. split; [done|]. constructor; [|constructor].
    by eapply compile_rule_methods.
Qed.

(** Claim C3, amended. Compilation is all or nothing: when a rule definition
    lacks endpoint, methods or conditions, or lists a method outside the
    vocabulary, [AccessControl] raises and no rule list exists. When the
    definitions before it compile and its methods are strings, the exception
    is [InvalidRuleDefinition] with the position and the definition of that
    rule. Every rule of a compiled rule list has its methods in the
    vocabulary (the list of methods may be empty). *)
Theorem compilation_all_or_nothing (security_definitions : pydict)
    (rules_value : pyval) (definitions : list pyval) :
  dict_lookup "rules" security_definitions = Some rules_value ->
  py_iter rules_value = Ok definitions ->
  (forall i d,
     definitions !! i = Some (VDict d) -> defective d ->
     exists e, AccessControl repr repr_set (Some security_definitions) = Raise e)
  /\ (forall i d rs,
        definitions !! i = Some (VDict d) -> defective d -> methods_are_strings d ->
        compile_rules repr repr_set 0 (take i definitions) [] None = Ok rs ->
        exists msg,
          AccessControl repr repr_set (Some security_definitions)
          = Raise (InvalidRuleDefinition msg i (VDict d)))
  /\ (forall rules,
        AccessControl repr repr_set (Some security_definitions) = Ok rules ->
        Forall methods_in_vocabulary rules).
Proof.
  intros Hrules Hdefs. unfold AccessControl. rewrite Hrules, Hdefs. cbn [rbind].
  split; [|split].
  - intros i d Hi Hdef. by eapply compile_rules_raise.
  - intros i d rs Hi Hdef Hstr Hpre.
    destruct (compile_rule_structured i d Hdef Hstr) as [msg Hall]. exists msg.
    assert (Hlen : List.length (take i definitions) = i).
    { apply length_take_le. apply lookup_lt_Some in Hi. lia. }
    rewrite <- (take_drop_middle definitions i (VDict d) Hi).
    eapply compile_rules_first_failure; [exact Hpre|].
    intros chk'. cbn [Nat.add]. rewrite Hlen. apply Hall.
  - intros rules Hok. eapply compile_rules_methods; [exact Hok | constructor].
Qed.

End Compiler.

(** Claim C3, as the code has it. A rule whose list of methods is empty
    compiles, to a rule with no method at all. And when an earlier rule stops
    the constructor with an exception of its own ([reduce] of no groups is a
    [TypeError]), a later rule without endpoint is not reported. *)
Lemma empty_methods_compile :
  AccessControl Sample.repr Sample.repr_set (Some empty_methods_config)
  = Ok [ {| endpoint_pattern := VStr "orders.*"; http_methods := VList [];
            checker := Scopes {[HStr "read"]} |} ]
  /\ defective no_endpoint_rule
  /\ AccessControl Sample.repr Sample.repr_set (Some empty_group_config)
     = Raise TypeError.
Proof.
  split; [vm_compute; reflexivity|]. split; [by left|]. vm_compute; reflexivity.
Qed.

Lemma compilation_all_or_nothing_witness :
  defective no_endpoint_rule
  /\ methods_are_strings no_endpoint_rule
  /\ (exists rs, compile_rules Sample.repr Sample.repr_set 0 [orders_rule] [] None = Ok rs)
  /\ AccessControl Sample.repr Sample.repr_set (Some broken_config)
     = Raise (InvalidRuleDefinition "Missing endpoint" 1 (VDict no_endpoint_rule)).
Proof.
  assert (Hdef : defective no_endpoint_rule) by (by left).
  assert (Hstr : methods_are_strings no_endpoint_rule).
  { intros v [= <-]. by exists ["GET"]. }
  assert (Hpre : compile_rules Sample.repr Sample.repr_set 0
                   (take 1 [orders_rule; VDict no_endpoint_rule]) [] None
                 = Ok [ {| endpoint_pattern := VStr "orders.*";
                           http_methods := VList [VStr "GET"];
                           checker := Scopes {[HStr "read"]} |} ])
    by (vm_compute; reflexivity).
  split; [exact Hdef|]. split; [exact Hstr|]. split; [eexists; exact Hpre|].
  destruct (compilation_all_or_nothing Sample.repr Sample.repr_set broken_config
              (VList [orders_rule; VDict no_endpoint_rule])
              [orders_rule; VDict no_endpoint_rule] eq_refl eq_refl)
    as (_ & Hfirst & _).
  destruct (Hfirst 1%nat no_endpoint_rule _ eq_refl Hdef Hstr Hpre) as [msg Hmsg].
  rewrite Hmsg. vm_compute in Hmsg. by injection Hmsg as <-.
Defined.

(** ** Options of the leaf conditions *)

Section LeafOptions.

Variable repr : pyval -> string.
Variable repr_set : gset hashable -> string.

Lemma location_of_valid (w : pyval) (h : hashable) :
  hash_of w = Ok h -> h ∉ OrganizationGUIDT.valid -> location_of w = None.
Proof.
  unfold OrganizationGUIDT.valid. rewrite !not_elem_of_union, !not_elem_of_singleton.
  destruct w as [| | |s| |]; try done. simpl. intros [= <-] [[Hp Hq] Hj].
  destruct (String.eqb_spec s "path") as [->|_]; [done|].
  destruct (String.eqb_spec s "query") as [->|_]; [done|].
  destruct (String.eqb_spec s "json") as [->|_]; done.
Qed.

Lemma location_of_member (w : pyval) (h : hashable) :
  hash_of w = Ok h -> h ∈ OrganizationGUIDT.valid -> is_Some (location_of w).
Proof.
  unfold OrganizationGUIDT.valid. rewrite !elem_of_union, !elem_of_singleton.
  destruct w as [| []| |s| |]; simpl; intros [= <-] [[H|H]|H]; try done;
    injection H as ->; by eexists.
Qed.

(** The first name that a table does not list stops the comprehension. *)
Lemma mapM_unknown_alias {V : Type} (table : list (string * V)) (names : list string)
    (name : string) :
  name ∈ names -> unknown_alias table name ->
  exists k, unknown_alias table k
            /\ mapM (table_getitem table) (VStr <$> names) = Raise (KeyError (VStr k)).
Proof.
  intros Hin Hunknown. induction names as [|n names IH]; [by apply elem_of_nil in Hin|].
  rewrite fmap_cons. cbn [mapM]. unfold table_getitem at 1. cbn [hash_of rbind].
  destruct (List.find (fun kv => String.eqb (fst kv) n) table) as [kv|] eqn:Hn.
  - apply elem_of_cons in Hin as [->|Hin].
    + unfold unknown_alias in Hunknown. congruence.
    + destruct (IH Hin) as (k & Hk & ->). by exists k.
  - by exists n.
Qed.

Lemma check_methods_valid (counter : nat) (definition : pyval) (ms : list pyval) :
  Forall valid_method ms -> check_methods repr counter definition ms = Ok tt.
Proof.
  induction 1 as [|m ms (h & Hh & Hin) _ IH]; [done|].
  cbn [check_methods]. unfold py_in_set. rewrite Hh. cbn [rbind].
  by rewrite bool_decide_eq_true_2.
Qed.

Lemma build_children_raise (pre : list (string * pyval)) :
  forall (cs : list condition) (n : string) (o : pyval)
         (post : list (string * pyval)) (e : exn),
    build_children repr_set pre = Ok cs ->
    concrete_condition repr_set n o = Raise e ->
    build_children repr_set (pre ++ (n, o) :: post) = Raise e.
Proof.
  unfold build_children.
  induction pre as [|[n0 o0] pre IH]; intros cs n o post e Hpre Hno.
  - cbn [app mapM fst snd]. by rewrite Hno.
  - cbn [app mapM fst snd] in *.
    destruct (concrete_condition repr_set n0 o0) as [c0|]; [|done].
    cbn [rbind] in *.
    destruct (mapM _ pre) as [cs'|] eqn:Hpre'; [|done].
    by rewrite (IH cs' n o post e eq_refl Hno).
Qed.

(** The two handlers turn an option error into the structured one. *)
Lemma except_option_errors_raise (counter : nat) (definition : pyval) (e : exn) :
  is_option_error e ->
  exists msg,
    except_option_errors repr counter definition (Raise e)
    = Raise (InvalidRuleDefinition msg counter definition).
Proof. destruct e; try done; intros _; by eexists. Qed.

(** A rule whose conditions raise an option error while they are built. *)
Lemma compile_rule_option_error (counter : nat) (d : pydict) (chk : option condition)
    (endpoint methods : pyval) (ms : list pyval) (entries : list (string * pyval))
    (e : exn) :
  dict_lookup "endpoint" d = Some endpoint ->
  dict_lookup "methods" d = Some methods ->
  py_iter methods = Ok ms -> Forall valid_method ms ->
  dict_lookup "conditions" d = Some (VDict entries) ->
  build_children repr_set entries = Raise e -> is_option_error e ->
  exists msg,
    compile_rule repr repr_set counter (VDict d) chk
    = Raise (InvalidRuleDefinition msg counter (VDict d)).
Proof.
  intros He Hm Hms Hvalid Hcs Hbuild Herr.
  unfold compile_rule. cbn [py_getitem]. rewrite He, Hm, Hcs.
  cbn [except_KeyError rbind]. rewrite Hms. cbn [rbind].
  rewrite (check_methods_valid _ _ _ Hvalid). cbn [rbind py_len].
  destruct (except_option_errors_raise counter (VDict d) e Herr) as [msg Hmsg].
  destruct entries as [|[n o] [|entry entries]].
  - done.
  - cbn [List.length Nat.ltb Nat.leb py_items rbind assign_checker].
    unfold build_children in Hbuild. cbn [mapM fst snd] in Hbuild.
    destruct (concrete_condition repr_set n o) as [c|e']; [done|].
    injection Hbuild as ->. rewrite Hmsg. by exists msg.
  - cbn [List.length Nat.ltb Nat.leb].
    rewrite concrete_condition_AllOf. cbn [children_of].
    rewrite Hbuild. cbn [rbind]. rewrite Hmsg. by exists msg.
Qed.

(** Claim C9, amended. An [OrganizationGUID] whose [where] is outside
    path, query, json fails with the assertion, and one without [where] or
    without [parameter] fails with a [KeyError]; a role or team condition
    naming an alias that its table does not list fails with a [KeyError];
    such an error inside a combinator is the error of the combinator; and the
    constructor reports it as [InvalidRuleDefinition] with the position and
    the definition of the rule. A role, team or scope condition given an
    empty list compiles, to a condition that no view satisfies. *)
Theorem leaf_option_errors :
  (forall d w h,
     dict_lookup "where" d = Some w -> hash_of w = Ok h ->
     h ∉ OrganizationGUIDT.valid ->
     concrete_condition repr_set "OrganizationGUID" (VDict d)
     = Raise (AssertionError ("The 'where' option should be one of "
                              ++ repr_set OrganizationGUIDT.valid)))
  /\ (forall d,
        dict_lookup "where" d = None ->
        concrete_condition repr_set "OrganizationGUID" (VDict d)
        = Raise (KeyError (VStr "where")))
  /\ (forall d w h,
        dict_lookup "where" d = Some w -> hash_of w = Ok h ->
        h ∈ OrganizationGUIDT.valid -> dict_lookup "parameter" d = None ->
        concrete_condition repr_set "OrganizationGUID" (VDict d)
        = Raise (KeyError (VStr "parameter")))
  /\ (forall names name,
        name ∈ names -> unknown_alias SABRolesT.valid name ->
        exists k, unknown_alias SABRolesT.valid k
                  /\ concrete_condition repr_set "SABRoles" (VList (VStr <$> names))
                     = Raise (KeyError (VStr k)))
  /\ (forall names name,
        name ∈ names -> unknown_alias TeamsT.valid name ->
        exists k, unknown_alias TeamsT.valid k
                  /\ concrete_condition repr_set "Teams" (VList (VStr <$> names))
                     = Raise (KeyError (VStr k)))
  /\ (forall pre cs n o post e,
        build_children repr_set pre = Ok cs ->
        concrete_condition repr_set n o = Raise e ->
        concrete_condition repr_set "AnyOf" (VDict (pre ++ (n, o) :: post)) = Raise e
        /\ concrete_condition repr_set "AllOf" (VDict (pre ++ (n, o) :: post)) = Raise e
        /\ build_children repr_set (pre ++ (n, o) :: post) = Raise e)
  /\ (forall counter d chk endpoint methods ms entries e,
        dict_lookup "endpoint" d = Some endpoint ->
        dict_lookup "methods" d = Some methods ->
        py_iter methods = Ok ms -> Forall valid_method ms ->
        dict_lookup "conditions" d = Some (VDict entries) ->
        build_children repr_set entries = Raise e -> is_option_error e ->
        exists msg,
          compile_rule repr repr_set counter (VDict d) chk
          = Raise (InvalidRuleDefinition msg counter (VDict d)))
  /\ concrete_condition repr_set "SABRoles" (VList []) = Ok (SABRoles ∅)
  /\ concrete_condition repr_set "Teams" (VList []) = Ok (Teams ∅)
  /\ concrete_condition repr_set "Scopes" (VList []) = Ok (Scopes ∅)
  /\ (forall view req,
        test (SABRoles ∅) view req <> Ok true
        /\ test (Teams ∅) view req <> Ok true
        /\ test (Scopes ∅) view req <> Ok true).
Proof.
  split_and!.
  - intros d w h Hw Hh Hout. rewrite concrete_condition_OrganizationGUID.
    unfold OrganizationGUID_init. cbn [py_getitem]. rewrite Hw. cbn [rbind].
    rewrite Hh. cbn [rbind]. by rewrite (location_of_valid w h Hh Hout).
  - intros d Hw. rewrite concrete_condition_OrganizationGUID.
    unfold OrganizationGUID_init. cbn [py_getitem]. by rewrite Hw.
  - intros d w h Hw Hh Hin Hp. rewrite concrete_condition_OrganizationGUID.
    unfold OrganizationGUID_init. cbn [py_getitem]. rewrite Hw. cbn [rbind].
    rewrite Hh. cbn [rbind].
    destruct (location_of_member w h Hh Hin) as [l ->]. by rewrite Hp.
  - intros names name Hin Hunknown.
    destruct (mapM_unknown_alias SABRolesT.valid names name Hin Hunknown)
      as (k & Hk & Hraise).
    exists k. split; [done|]. rewrite concrete_condition_SABRoles.
    unfold SABRoles_init. cbn [py_iter rbind]. by rewrite Hraise.
  - intros names name Hin Hunknown.
    destruct (mapM_unknown_alias TeamsT.valid names name Hin Hunknown)
      as (k & Hk & Hraise).
    exists k. split; [done|]. rewrite concrete_condition_Teams.
    unfold Teams_init. cbn [py_iter rbind]. by rewrite Hraise.
  - intros pre cs n o post e Hpre Hno.
    pose proof (build_children_raise pre cs n o post e Hpre Hno) as Hraise.
    rewrite concrete_condition_AnyOf, concrete_condition_AllOf. cbn [children_of].
    by rewrite Hraise.
  - intros counter d chk endpoint methods ms entries e.
    apply compile_rule_option_error.
  - reflexivity.
  - reflexivity.
  - reflexivity.
  - intros view req. simpl. unfold intersects. split_and!.
    + destruct (UserAttributes.roles view) as [mine|]; [|done]. simpl.
      rewrite bool_decide_eq_false_2; [done|]. intros H. apply H. apply intersection_empty_r_L.
    + destruct (UserAttributes.teams view) as [mine|]; [|done]. simpl.
      rewrite bool_decide_eq_false_2; [done|]. intros H. apply H. apply intersection_empty_r_L.
    + destruct (UserAttributes.scopes view) as [mine|]; [|done]. simpl.
      rewrite bool_decide_eq_false_2; [done|]. intros H. apply H. apply intersection_empty_r_L.
Qed.

End LeafOptions.

(** Claim C9, as the code has it. A role, team or scope condition given an
    empty list is built without error, and a rule with such a condition
    compiles; an organization-code condition given an empty list fails with
    the [TypeError] of [reduce], which the constructor does not report as
    [InvalidRuleDefinition]. *)
Lemma empty_list_conditions_compile :
  concrete_condition Sample.repr_set "SABRoles" (VList []) = Ok (SABRoles ∅)
  /\ concrete_condition Sample.repr_set "Teams" (VList []) = Ok (Teams ∅)
  /\ concrete_condition Sample.repr_set "Scopes" (VList []) = Ok (Scopes ∅)
  /\ AccessControl Sample.repr Sample.repr_set
       (Some [("rules", VList [VDict empty_roles_rule])])
     = Ok [ {| endpoint_pattern := VStr "admin.*"; http_methods := VList [VStr "DELETE"];
               checker := SABRoles ∅ |} ]
  /\ concrete_condition Sample.repr_set "TargetOrganizations" (VList []) = Raise TypeError.
Proof. split_and!; vm_compute; reflexivity. Qed.

Lemma leaf_option_errors_witness :
  "root" ∈ ["root"]
  /\ unknown_alias SABRolesT.valid "root"
  /\ (exists k, concrete_condition Sample.repr_set "SABRoles" (VList [VStr "root"])
                = Raise (KeyError (VStr k)))
  /\ build_children Sample.repr_set [("AnyOf", VDict [("SABRoles", VList [VStr "root"])])]
     = Raise (KeyError (VStr "root"))
  /\ exists msg,
       compile_rule Sample.repr Sample.repr_set 0 (VDict unknown_role_rule) None
       = Raise (InvalidRuleDefinition msg 0 (VDict unknown_role_rule)).
Proof.
  destruct (leaf_option_errors Sample.repr Sample.repr_set)
    as (_ & _ & _ & Hroles & _ & _ & Hrule & _).
  assert (Hin : "root" ∈ ["root"]) by constructor.
  assert (Hunknown : unknown_alias SABRolesT.valid "root") by reflexivity.
  assert (Hbuild : build_children Sample.repr_set
                     [("AnyOf", VDict [("SABRoles", VList [VStr "root"])])]
                   = Raise (KeyError (VStr "root"))) by reflexivity.
  split; [exact Hin|]. split; [exact Hunknown|]. split.
  - destruct (Hroles ["root"] "root" Hin Hunknown) as (k & _ & Hk). by exists k.
  - split; [exact Hbuild|].
    assert (Hvalid : Forall valid_method [VStr "DELETE"]).
    { constructor; [|constructor]. exists (HStr "DELETE"). split; [reflexivity|].
      unfold VALID_HTTP_METHODS. set_solver. }
    exact (Hrule 0%nat unknown_role_rule None (VStr "admin.*") (VList [VStr "DELETE"])
             [VStr "DELETE"] [("AnyOf", VDict [("SABRoles", VList [VStr "root"])])]
             (KeyError (VStr "root")) eq_refl eq_refl eq_refl Hvalid eq_refl Hbuild I).
Defined.

(** * Further properties of the code *)

(** ** Prefix stripping *)

Lemma prefix_append (p s : string) : String.prefix p (String.append p s) = true.
Proof.
  induction p as [|c p IH]; simpl; [by destruct s|].
  destruct (Ascii.ascii_dec c c); [exact IH | done].
Qed.

Lemma str_drop_append (p s : string) :
  str_drop (String.length p) (String.append p s) = s.
Proof. induction p as [|c p IH]; simpl; [by destruct s | exact IH]. Qed.

Lemma prefix_inv (p : string) :
  forall u, String.prefix p u = true ->
            u = String.append p (str_drop (String.length p) u).
Proof.
  induction p as [|c p IH]; intros u Hu; [by destruct u|].
  destruct u as [|c' u]; simpl in Hu; [done|].
  destruct (Ascii.ascii_dec c c') as [->|]; [|done].
  transitivity (String c' (String.append p (str_drop (String.length p) u)));
    [f_equal; by apply IH | reflexivity].
Qed.

Lemma strip_prefix_spec (prefix : string) (urns : list string) :
  exists S, UserAttributes.strip_prefix prefix (VStr <$> urns) = Ok S
            /\ forall s, s ∈ S <-> String.append prefix s ∈ urns.
Proof.
  induction urns as [|urn urns (S & HS & Hspec)].
  - exists ∅. split; [done|]. intros s. rewrite elem_of_nil. set_solver.
  - rewrite fmap_cons. cbn [UserAttributes.strip_prefix]. rewrite HS. cbn [rbind].
    destruct (String.prefix prefix urn) eqn:Hp.
    + eexists. split; [done|]. intros s.
      rewrite elem_of_union, elem_of_singleton, elem_of_cons, Hspec.
      apply prefix_inv in Hp. split; (intros [H|H]; [left|by right]).
      * rewrite Hp. by rewrite H.
      * rewrite <- H. by rewrite str_drop_append.
    + exists S. split; [done|]. intros s. rewrite elem_of_cons, Hspec.
      split; [by right|]. intros [H|H]; [|done].
      rewrite <- H, prefix_append in Hp. done.
Qed.

(** X1. When the entitlement and membership claims are lists of strings, the
    four derived sets hold exactly the suffixes of the entries that start
    with the URN prefix of the set: [s] is a role if and only if the role
    URN followed by [s] is an entitlement, and likewise for teams (over the
    memberships), organization codes and organization GUIDs. *)
Theorem view_sets_membership (claims : UserAttributes.t) (ents mems : list string) :
  dict_lookup "eduperson_entitlement" claims = Some (VList (VStr <$> ents)) ->
  dict_lookup "edumember_is_member_of" claims = Some (VList (VStr <$> mems)) ->
  exists R T C G : gset string,
    UserAttributes.roles claims = Ok R
    /\ UserAttributes.teams claims = Ok T
    /\ UserAttributes.organization_codes claims = Ok C
    /\ UserAttributes.organization_guids claims = Ok G
    /\ forall s,
         (s ∈ R <-> String.append SABRolesT.URN s ∈ ents)
         /\ (s ∈ T <-> String.append TeamsT.URN s ∈ mems)
         /\ (s ∈ C <-> String.append TargetOrganizationsT.URN s ∈ ents)
         /\ (s ∈ G <-> String.append OrganizationGUIDT.URN s ∈ ents).
Proof.
  intros Hents Hmems.
  destruct (strip_prefix_spec SABRolesT.URN ents) as (R & HR & HRs).
  destruct (strip_prefix_spec TeamsT.URN mems) as (T & HT & HTs).
  destruct (strip_prefix_spec TargetOrganizationsT.URN ents) as (C & HC & HCs).
  destruct (strip_prefix_spec OrganizationGUIDT.URN ents) as (G & HG & HGs).
  exists R, T, C, G.
  unfold UserAttributes.roles, UserAttributes.teams, UserAttributes.organization_codes,
    UserAttributes.organization_guids, UserAttributes.entitlements,
    UserAttributes.memberships, get_default.
  rewrite Hents, Hmems. cbn [default py_iter rbind].
  by split_and!.
Qed.

Lemma view_sets_membership_witness :
  exists R T C G : gset string,
    UserAttributes.roles sample_claims = Ok R
    /\ UserAttributes.teams sample_claims = Ok T
    /\ UserAttributes.organization_codes sample_claims = Ok C
    /\ UserAttributes.organization_guids sample_claims = Ok G
    /\ "Infraverantwoordelijke" ∈ R /\ "noc-engineers" ∈ T.
Proof.
  destruct (view_sets_membership sample_claims
              ["urn:mace:surfnet.nl:surfnet.nl:sab:role:Infraverantwoordelijke"]
              ["urn:collab:group:surfteams.nl:nl:surfnet:diensten:noc-engineers"]
              eq_refl eq_refl) as (R & T & C & G & HR & HT & HC & HG & Hs).
  exists R, T, C, G. split_and!; try done.
  - apply (Hs "Infraverantwoordelijke"). by constructor.
  - apply (Hs "noc-engineers"). by constructor.
Defined.

(** ** Scopes *)

Lemma split_space_no_space (s : string) :
  has_space s = false -> split_space s = [s].
Proof.
  induction s as [|c s IH]; [done|]. simpl.
  destruct (Ascii.eqb c " "); [done|]. simpl. intros H. by rewrite (IH H).
Qed.

Lemma split_space_append (s t : string) :
  has_space s = false ->
  split_space (String.append s (String " " t)) = s :: split_space t.
Proof.
  induction s as [|c s IH]; [done|]. simpl.
  destruct (Ascii.eqb c " "); [done|]. simpl. intros H. by rewrite (IH H).
Qed.

Lemma split_join_space (l : list string) :
  l <> [] -> Forall (fun s => has_space s = false) l ->
  split_space (join_space l) = l.
Proof.
  induction l as [|s [|s' l] IH]; intros Hne Hl; [done| |].
  - apply Forall_cons in Hl as [Hs _]. by apply split_space_no_space.
  - apply Forall_cons in Hl as [Hs Hl].
    change (join_space (s :: s' :: l))
      with (String.append s (String " " (join_space (s' :: l)))).
    rewrite (split_space_append _ _ Hs). f_equal. by apply IH.
Qed.

Lemma mapM_hash_strings (l : list string) :
  mapM hash_of (VStr <$> l) = Ok (HStr <$> l).
Proof.
  induction l as [|s l IH]; [done|].
  rewrite !fmap_cons. cbn [mapM hash_of rbind]. by rewrite IH.
Qed.

(** X2. A scope claim given as a list of names, and the same names joined
    with single spaces into one string, give the same set of scopes (for a
    non-empty list of names that contain no space). *)
Theorem scopes_string_or_list (claims_s claims_l : UserAttributes.t) (l : list string) :
  l <> [] -> Forall (fun s => has_space s = false) l ->
  dict_lookup "scope" claims_s = Some (VStr (join_space l)) ->
  dict_lookup "scope" claims_l = Some (VList (VStr <$> l)) ->
  UserAttributes.scopes claims_s = Ok (list_to_set (HStr <$> l))
  /\ UserAttributes.scopes claims_l = Ok (list_to_set (HStr <$> l)).
Proof.
  intros Hne Hl Hs Hlist. unfold UserAttributes.scopes, get_default.
  rewrite Hs, Hlist. cbn [default id from_option]. split.
  - by rewrite (split_join_space l Hne Hl).
  - unfold py_set. by rewrite mapM_hash_strings.
Qed.

Lemma scopes_string_or_list_witness :
  UserAttributes.scopes [("scope", VStr "read write")]
  = UserAttributes.scopes [("scope", VList [VStr "read"; VStr "write"])].
Proof.
  destruct (scopes_string_or_list [("scope", VStr "read write")]
              [("scope", VList [VStr "read"; VStr "write"])] ["read"; "write"])
    as [Hs Hl]; [done | by repeat constructor | reflexivity | reflexivity |].
  by rewrite Hs, Hl.
Defined.

(** ** Leaf conditions, from their options to their test *)

Lemma intersects_true `{Countable A} (a b : gset A) :
  intersects a b = true <-> exists x, x ∈ a /\ x ∈ b.
Proof.
  unfold intersects. rewrite bool_decide_eq_true. split.
  - intros [x Hx%elem_of_intersection]%set_choose_L. by exists x.
  - intros (x & Ha & Hb) Hempty.
    assert (Hx : x ∈ a ∩ b) by (by apply elem_of_intersection).
    rewrite Hempty in Hx. by apply not_elem_of_empty in Hx.
Qed.

Lemma table_getitem_name {V : Type} (table : list (string * V)) (name : string) :
  table_getitem table (VStr name)
  = match alias_of table name with
    | Some v => Ok v
    | None => Raise (KeyError (VStr name))
    end.
Proof.
  unfold table_getitem, alias_of. cbn [hash_of rbind].
  by destruct (List.find _ table).
Qed.

(** The values of a comprehension over a class table. *)
Lemma mapM_aliases {V : Type} (table : list (string * V)) (names : list string) :
  forall vs,
    mapM (table_getitem table) (VStr <$> names) = Ok vs ->
    forall v, v ∈ vs <-> exists name, name ∈ names /\ alias_of table name = Some v.
Proof.
  induction names as [|n names IH]; intros vs Hvs v.
  - injection Hvs as <-. rewrite elem_of_nil. split; [done|].
    by intros (name & ?%elem_of_nil & _).
  - rewrite fmap_cons in Hvs. cbn [mapM] in Hvs. rewrite table_getitem_name in Hvs.
    destruct (alias_of table n) as [v0|] eqn:Hn; [|done]. cbn [rbind] in Hvs.
    destruct (mapM _ (VStr <$> names)) as [vs'|] eqn:Hvs'; [|done].
    injection Hvs as <-. rewrite elem_of_cons, (IH vs' eq_refl). split.
    + intros [->|(name & Hin & Hname)].
      * exists n. split; [by left | done].
      * exists name. split; [by right | done].
    + intros (name & [->|Hin]%elem_of_cons & Hname).
      * left. congruence.
      * right. by exists name.
Qed.

Lemma mapM_aliases_known {V : Type} (table : list (string * V)) (names : list string) :
  Forall (fun name => is_Some (alias_of table name)) names ->
  exists vs, mapM (table_getitem table) (VStr <$> names) = Ok vs.
Proof.
  induction 1 as [|n names [v Hn] _ [vs IH]]; [by eexists|].
  rewrite fmap_cons. cbn [mapM]. rewrite table_getitem_name, Hn. cbn [rbind].
  rewrite IH. by eexists.
Qed.

(** X3. A [SABRoles] condition built from a list of names is satisfied
    exactly by the users who hold, as an entitlement with the role URN
    prefix, the canonical role of one of the names. *)
Theorem role_condition_semantics (claims : UserAttributes.t) (ents names : list string)
    (c : condition) (req : request) :
  dict_lookup "eduperson_entitlement" claims = Some (VList (VStr <$> ents)) ->
  SABRoles_init (VList (VStr <$> names)) = Ok c ->
  (exists b, test c claims req = Ok b)
  /\ (test c claims req = Ok true
      <-> exists name role,
            name ∈ names /\ alias_of SABRolesT.valid name = Some role
            /\ String.append SABRolesT.URN role ∈ ents).
Proof.
  intros Hents Hinit. unfold SABRoles_init in Hinit. cbn [py_iter rbind] in Hinit.
  destruct (mapM _ (VStr <$> names)) as [vs|] eqn:Hvs; [|done].
  injection Hinit as <-. cbn [test].
  destruct (strip_prefix_spec SABRolesT.URN ents) as (R & HR & HRs).
  unfold UserAttributes.roles, UserAttributes.entitlements, get_default.
  rewrite Hents. cbn [default id from_option py_iter rbind]. rewrite HR. cbn [rbind].
  split; [by eexists|]. split.
  - intros [= Htrue]. apply intersects_true in Htrue as (role & Hmine & Hrole).
    apply elem_of_list_to_set in Hrole.
    apply (mapM_aliases _ _ _ Hvs) in Hrole as (name & Hname & Halias).
    exists name, role. split_and!; try done. by apply HRs.
  - intros (name & role & Hname & Halias & Hent). f_equal. apply intersects_true.
    exists role. split; [by apply HRs|].
    apply elem_of_list_to_set, (mapM_aliases _ _ _ Hvs). by exists name.
Qed.

Lemma role_condition_semantics_witness :
  test (SABRoles {["Infraverantwoordelijke"]}) sample_claims admin_request = Ok true.
Proof.
  assert (Hinit : SABRoles_init (VList (VStr <$> ["infraverantwoordelijke"]))
                  = Ok (SABRoles (list_to_set ["Infraverantwoordelijke"])))
    by reflexivity.
  destruct (role_condition_semantics sample_claims
              ["urn:mace:surfnet.nl:surfnet.nl:sab:role:Infraverantwoordelijke"]
              ["infraverantwoordelijke"] _ admin_request eq_refl Hinit) as [_ Hiff].
  assert (Heq : (list_to_set ["Infraverantwoordelijke"] : gset string)
                = {["Infraverantwoordelijke"]}) by (vm_compute; reflexivity).
  rewrite <- Heq. apply Hiff.
  exists "infraverantwoordelijke", "Infraverantwoordelijke".
  split_and!; [by constructor | reflexivity | by constructor].
Defined.

(** X4. A [Teams] condition built from a list of names is satisfied exactly
    by the users who are member, with the team URN prefix, of the team of one
    of the names. *)
Theorem team_condition_semantics (claims : UserAttributes.t) (mems names : list string)
    (c : condition) (req : request) :
  dict_lookup "edumember_is_member_of" claims = Some (VList (VStr <$> mems)) ->
  Teams_init (VList (VStr <$> names)) = Ok c ->
  (exists b, test c claims req = Ok b)
  /\ (test c claims req = Ok true
      <-> exists name team,
            name ∈ names /\ alias_of TeamsT.valid name = Some team
            /\ String.append TeamsT.URN team ∈ mems).
Proof.
  intros Hmems Hinit. unfold Teams_init in Hinit. cbn [py_iter rbind] in Hinit.
  destruct (mapM _ (VStr <$> names)) as [vs|] eqn:Hvs; [|done].
  injection Hinit as <-. cbn [test].
  destruct (strip_prefix_spec TeamsT.URN mems) as (T & HT & HTs).
  unfold UserAttributes.teams, UserAttributes.memberships, get_default.
  rewrite Hmems. cbn [default id from_option py_iter rbind]. rewrite HT. cbn [rbind].
  split; [by eexists|]. split.
  - intros [= Htrue]. apply intersects_true in Htrue as (team & Hmine & Hteam).
    apply elem_of_list_to_set in Hteam.
    apply (mapM_aliases _ _ _ Hvs) in Hteam as (name & Hname & Halias).
    exists name, team. split_and!; try done. by apply HTs.
  - intros (name & team & Hname & Halias & Hmem). f_equal. apply intersects_true.
    exists team. split; [by apply HTs|].
    apply elem_of_list_to_set, (mapM_aliases _ _ _ Hvs). by exists name.
Qed.

Lemma team_condition_semantics_witness :
  exists c, Teams_init (VList (VStr <$> ["noc"])) = Ok c
            /\ test c sample_claims admin_request = Ok true.
Proof.
  assert (Hinit : Teams_init (VList (VStr <$> ["noc"]))
                  = Ok (Teams (list_to_set ["noc-engineers"]))) by reflexivity.
  destruct (team_condition_semantics sample_claims
              ["urn:collab:group:surfteams.nl:nl:surfnet:diensten:noc-engineers"]
              ["noc"] _ admin_request eq_refl Hinit) as [_ Hiff].
  eexists. split; [exact Hinit|]. apply Hiff.
  exists "noc", "noc-engineers".
  split_and!; [by constructor | reflexivity | by constructor].
Defined.

(** X5. A [Scopes] condition built from a list of names is satisfied exactly
    when one of the names is among the pieces of the scope string split at
    single spaces, or among the elements of the scope list. *)
Theorem scope_condition_semantics (claims : UserAttributes.t) (names : list string)
    (req : request) :
  Scopes_init (VList (VStr <$> names)) = Ok (Scopes (list_to_set (HStr <$> names)))
  /\ (forall s,
        dict_lookup "scope" claims = Some (VStr s) ->
        (test (Scopes (list_to_set (HStr <$> names))) claims req = Ok true
         <-> exists n, n ∈ names /\ n ∈ split_space s))
  /\ (forall l,
        dict_lookup "scope" claims = Some (VList (VStr <$> l)) ->
        (test (Scopes (list_to_set (HStr <$> names))) claims req = Ok true
         <-> exists n, n ∈ names /\ n ∈ l)).
Proof.
  assert (Hmem : forall (mine : list string),
             intersects (list_to_set (HStr <$> mine) : gset hashable)
               (list_to_set (HStr <$> names)) = true
             <-> exists n, n ∈ names /\ n ∈ mine).
  { intros mine. rewrite intersects_true. split.
    - intros (x & Hx%elem_of_list_to_set & Hn%elem_of_list_to_set).
      apply list_elem_of_fmap in Hx as (m & -> & Hm).
      apply list_elem_of_fmap in Hn as (n & [= ->] & Hn). by exists n.
    - intros (n & Hn & Hm). exists (HStr n).
      split; apply elem_of_list_to_set, list_elem_of_fmap; by exists n. }
  split_and!.
  - unfold Scopes_init, py_set. cbn [py_iter rbind]. by rewrite mapM_hash_strings.
  - intros s Hs. cbn [test]. unfold UserAttributes.scopes, get_default.
    rewrite Hs. cbn [default id from_option rbind]. rewrite <- Hmem.
    split; [by intros [= ->] | by intros ->].
  - intros l Hl. cbn [test]. unfold UserAttributes.scopes, py_set.
    rewrite Hl, mapM_hash_strings. cbn [rbind]. rewrite <- Hmem.
    split; [by intros [= ->] | by intros ->].
Qed.

Lemma scope_condition_semantics_witness :
  test (Scopes (list_to_set (HStr <$> ["admin"; "read"]))) sample_claims sample_request
  = Ok true.
Proof.
  destruct (scope_condition_semantics sample_claims ["admin"; "read"] sample_request)
    as (_ & Hstring & _).
  apply (Hstring "read write" eq_refl). exists "read".
  split; [by repeat constructor | by constructor].
Defined.

Lemma mapM_Permutation {A B : Type} (f : A -> result B) (l l' : list A) :
  Permutation l l' ->
  forall r, mapM f l = Ok r -> exists r', mapM f l' = Ok r' /\ Permutation r r'.
Proof.
  induction 1 as [|x l l' _ IH|x y l|l1 l2 l3 _ IH1 _ IH2]; intros r Hr.
  - exists r. by split.
  - cbn [mapM] in *. destruct (f x) as [b|]; [|done]. cbn [rbind] in *.
    destruct (mapM f l) as [bs|]; [|done]. injection Hr as <-.
    destruct (IH bs eq_refl) as (bs' & -> & Hperm). eexists. split; [done|].
    by constructor.
  - cbn [mapM] in *. destruct (f y) as [by_|]; [|done]. cbn [rbind] in *.
    destruct (f x) as [bx|]; [|done]. cbn [rbind] in *.
    destruct (mapM f l) as [bs|]; [|done]. injection Hr as <-.
    eexists. split; [done|]. apply perm_swap.
  - destruct (IH1 r Hr) as (r2 & Hr2 & Hp12).
    destruct (IH2 r2 Hr2) as (r3 & Hr3 & Hp23).
    exists r3. split; [done | by etrans].
Qed.

Lemma elem_of_foldl_union `{Countable A} (bs : list (gset A)) :
  forall (a : gset A) (x : A),
    x ∈ foldl (∪) a bs <-> x ∈ a \/ exists b, b ∈ bs /\ x ∈ b.
Proof.
  induction bs as [|b bs IH]; intros a x; cbn [foldl].
  - split; [by left|]. intros [?|(b & ?%elem_of_nil & _)]; done.
  - rewrite IH, elem_of_union. split.
    + intros [[?|?]|(b' & ? & ?)]; [by left | right; exists b | right; exists b'];
        (split; [|done]); [by left | by right].
    + intros [?|(b' & [->|?]%elem_of_cons & ?)];
        [by left; left | by left; right | right; by exists b'].
Qed.

(** The set that [reduce(set.union, ...)] makes of a non-empty list of
    groups. *)
Lemma elem_of_groups (g : list Z) (gs : list (list Z)) (z : Z) :
  z ∈ foldl (∪) (list_to_set g : gset Z) (list_to_set <$> gs)
  <-> exists grp, grp ∈ g :: gs /\ z ∈ grp.
Proof.
  rewrite elem_of_foldl_union, elem_of_list_to_set. split.
  - intros [Hz|(b & (grp & -> & Hgrp)%list_elem_of_fmap & Hz)].
    + exists g. split; [by left | done].
    + exists grp. split; [by right | by apply elem_of_list_to_set in Hz].
  - intros (grp & [->|Hgrp]%elem_of_cons & Hz); [by left|].
    right. exists (list_to_set grp).
    split; [apply list_elem_of_fmap; by exists grp | by apply elem_of_list_to_set].
Qed.

(** X6. The order of the options of a leaf condition does not matter: a
    permutation of the list builds the same [SABRoles], [Teams], [Scopes] or
    [TargetOrganizations] condition. *)
Theorem option_order_irrelevant (l l' : list pyval) (c : condition) :
  Permutation l l' ->
  (SABRoles_init (VList l) = Ok c -> SABRoles_init (VList l') = Ok c)
  /\ (Teams_init (VList l) = Ok c -> Teams_init (VList l') = Ok c)
  /\ (Scopes_init (VList l) = Ok c -> Scopes_init (VList l') = Ok c)
  /\ (TargetOrganizations_init (VList l) = Ok c ->
      TargetOrganizations_init (VList l') = Ok c).
Proof.
  intros Hperm. split_and!.
  - unfold SABRoles_init. cbn [py_iter rbind].
    destruct (mapM _ l) as [vs|] eqn:Hvs; [|done]. intros [= <-].
    destruct (mapM_Permutation _ _ _ Hperm vs Hvs) as (vs' & -> & Hp).
    cbn [rbind]. do 2 f_equal. by apply list_to_set_perm_L.
  - unfold Teams_init. cbn [py_iter rbind].
    destruct (mapM _ l) as [vs|] eqn:Hvs; [|done]. intros [= <-].
    destruct (mapM_Permutation _ _ _ Hperm vs Hvs) as (vs' & -> & Hp).
    cbn [rbind]. do 2 f_equal. by apply list_to_set_perm_L.
  - unfold Scopes_init, py_set. cbn [py_iter rbind].
    destruct (mapM hash_of l) as [hs|] eqn:Hhs; [|done]. intros [= <-].
    destruct (mapM_Permutation _ _ _ Hperm hs Hhs) as (hs' & -> & Hp).
    cbn [rbind]. do 2 f_equal. by apply list_to_set_perm_L.
  - unfold TargetOrganizations_init. cbn [py_iter rbind].
    destruct (mapM _ l) as [gs|] eqn:Hgs; [|done]. cbn [rbind].
    destruct (mapM_Permutation _ _ _ Hperm gs Hgs) as (gs' & -> & Hp).
    cbn [rbind]. destruct gs as [|g gs]; [done|]. intros [= <-].
    destruct gs' as [|g' gs']; [by apply Permutation_nil_r in Hp|].
    do 2 f_equal. apply set_eq. intros z. rewrite !elem_of_groups.
    split; intros (grp & Hgrp & Hz); exists grp; (split; [|done]).
    + by rewrite Hp.
    + by rewrite <- Hp.
Qed.

Lemma option_order_irrelevant_witness :
  SABRoles_init (VList [VStr "superuserro"; VStr "infrabeheerder"])
  = SABRoles_init (VList [VStr "infrabeheerder"; VStr "superuserro"]).
Proof.
  assert (Hinit : SABRoles_init (VList [VStr "infrabeheerder"; VStr "superuserro"])
                  = Ok (SABRoles (list_to_set ["Infrabeheerder"; "SuperuserRO"])))
    by reflexivity.
  destruct (option_order_irrelevant
              [VStr "infrabeheerder"; VStr "superuserro"]
              [VStr "superuserro"; VStr "infrabeheerder"]
              (SABRoles (list_to_set ["Infrabeheerder"; "SuperuserRO"]))
              (perm_swap _ _ _))
    as (Hroles & _).
  by rewrite (Hroles Hinit), Hinit.
Defined.

(** X7. [TargetOrganizations] built from a non-empty list of group names,
    all of them listed in the class table, holds exactly the codes of the
    named groups. *)
Theorem target_organizations_union (names : list string) :
  names <> [] ->
  Forall (fun name => is_Some (alias_of TargetOrganizationsT.valid name)) names ->
  exists T : gset Z,
    TargetOrganizations_init (VList (VStr <$> names)) = Ok (TargetOrganizations T)
    /\ forall z, z ∈ T <-> exists name group,
                            name ∈ names
                            /\ alias_of TargetOrganizationsT.valid name = Some group
                            /\ z ∈ group.
Proof.
  intros Hne Hknown.
  destruct (mapM_aliases_known _ _ Hknown) as [gs Hgs].
  unfold TargetOrganizations_init. cbn [py_iter rbind]. rewrite Hgs. cbn [rbind].
  pose proof (mapM_aliases _ _ _ Hgs) as Hspec.
  destruct gs as [|g gs].
  - destruct names as [|n names]; [done|]. exfalso.
    apply Forall_cons in Hknown as [[v Hv] _].
    assert (Hin : v ∈ ([] : list (list Z))); [|by apply elem_of_nil in Hin].
    apply Hspec. exists n. split; [by left | done].
  - eexists. split; [done|]. intros z. rewrite elem_of_groups. split.
    + intros (grp & (name & Hname & Halias)%Hspec & Hz). by exists name, grp.
    + intros (name & grp & Hname & Halias & Hz). exists grp. split; [|done].
      apply Hspec. by exists name.
Qed.

Lemma target_organizations_union_witness :
  exists T : gset Z,
    TargetOrganizations_init (VList [VStr "colo_providers"; VStr "international_partners"])
    = Ok (TargetOrganizations T)
    /\ 13 ∈ T /\ 6 ∈ T.
Proof.
  destruct (target_organizations_union ["colo_providers"; "international_partners"])
    as (T & HT & Hspec); [done | by repeat constructor; eexists |].
  exists T. split; [exact HT|]. split; apply Hspec.
  - exists "international_partners", TargetOrganizationsT.international_partners.
    split_and!; [by repeat constructor | reflexivity | by constructor].
  - exists "colo_providers", TargetOrganizationsT.colo_providers.
    split_and!; [by constructor | reflexivity | by constructor].
Defined.

Lemma py_in_str_set_false (G : gset string) : py_in_set VNone (str_set G) = Ok false.
Proof.
  unfold py_in_set, str_set. cbn [hash_of rbind]. f_equal.
  apply bool_decide_eq_false. by intros (s & [=] & _)%elem_of_map.
Qed.

(** X8. An [OrganizationGUID] condition on a path or query parameter is
    satisfied exactly when the request gives the parameter a string that is
    one of the user's organization GUIDs; a request without the parameter is
    refused. *)
Theorem path_and_query_parameters (param : pyval) (view : UserAttributes.t)
    (req : request) :
  (test (OrganizationGUID Path param) view req = Ok true
   <-> exists (s : string) (G : gset string),
         dict_get (view_args req) param = Ok (VStr s)
         /\ UserAttributes.organization_guids view = Ok G /\ s ∈ G)
  /\ (test (OrganizationGUID Query param) view req = Ok true
      <-> exists (s : string) (G : gset string),
            dict_get (args req) param = Ok (VStr s)
            /\ UserAttributes.organization_guids view = Ok G /\ s ∈ G)
  /\ (forall (p : string) (G : gset string),
        UserAttributes.organization_guids view = Ok G ->
        (dict_lookup p (view_args req) = None ->
         test (OrganizationGUID Path (VStr p)) view req = Ok false)
        /\ (dict_lookup p (args req) = None ->
            test (OrganizationGUID Query (VStr p)) view req = Ok false)).
Proof.
  cbn [test OrganizationGUID_test]. split_and!.
  - split.
    + intros (v & Hv & (G & HG & Hin)%rbind_Ok)%rbind_Ok.
      apply py_in_str_set in Hin as (s & -> & Hs). by exists s, G.
    + intros (s & G & -> & -> & Hs). cbn [rbind]. apply py_in_str_set. by exists s.
  - split.
    + intros (v & Hv & (G & HG & Hin)%rbind_Ok)%rbind_Ok.
      apply py_in_str_set in Hin as (s & -> & Hs). by exists s, G.
    + intros (s & G & -> & -> & Hs). cbn [rbind]. apply py_in_str_set. by exists s.
  - intros p G HG. unfold dict_get. cbn [hash_of rbind]. rewrite HG.
    split; intros ->; cbn [default id from_option rbind]; apply py_in_str_set_false.
Qed.

Lemma path_and_query_parameters_witness :
  test (OrganizationGUID Path (VStr "customerId")) customer_claims
    {| endpoint := Some "subscriptions.get"; base_url := "http://localhost/subscriptions";
       method := "GET"; view_args := [("customerId", VStr "c9b5e717")]; args := [];
       json := VNone |} = Ok true
  /\ test (OrganizationGUID Query (VStr "customerId")) customer_claims sample_request
     = Ok false.
Proof.
  split.
  - apply path_and_query_parameters. exists "c9b5e717", {["c9b5e717"]}.
    split; [reflexivity|]. split; [vm_compute; reflexivity | by apply elem_of_singleton].
  - assert (HG : UserAttributes.organization_guids customer_claims = Ok {["c9b5e717"]})
      by (vm_compute; reflexivity).
    destruct (path_and_query_parameters (VStr "customerId") customer_claims sample_request)
      as (_ & _ & Hmissing).
    exact (proj2 (Hmissing "customerId" _ HG) eq_refl).
Defined.

(** ** Combinators compose *)

Lemma True_in_app {A : Type} (f : A -> result bool) (a b : list A) :
  True_in f (a ++ b) = (r <- True_in f a ;; if r then Ok true else True_in f b).
Proof.
  induction a as [|x a IH]; [done|]. cbn [app True_in].
  destruct (f x) as [[]|]; cbn [rbind]; [done | exact IH | done].
Qed.

Lemma False_not_in_app {A : Type} (f : A -> result bool) (a b : list A) :
  False_not_in f (a ++ b)
  = (r <- False_not_in f a ;; if r then False_not_in f b else Ok false).
Proof.
  induction a as [|x a IH]; [done|]. cbn [app False_not_in].
  destruct (f x) as [[]|]; cbn [rbind]; [exact IH | done | done].
Qed.

(** X9. Combinators nest as expected, exceptions included: a combinator
    around a single condition tests like that condition, and an [AnyOf] of
    two [AnyOf] (an [AllOf] of two [AllOf]) tests like the one combinator over
    all the children. *)
Theorem combinator_nesting (c : condition) (cs1 cs2 : list condition)
    (view : UserAttributes.t) (req : request) :
  test (AnyOf [c]) view req = test c view req
  /\ test (AllOf [c]) view req = test c view req
  /\ test (AnyOf [AnyOf cs1; AnyOf cs2]) view req = test (AnyOf (cs1 ++ cs2)) view req
  /\ test (AllOf [AllOf cs1; AllOf cs2]) view req = test (AllOf (cs1 ++ cs2)) view req.
Proof.
  split_and!.
  - cbn [test True_in]. by destruct (test c view req) as [[]|].
  - cbn [test False_not_in]. by destruct (test c view req) as [[]|].
  - cbn [test]. rewrite True_in_app. cbn [True_in test].
    destruct (True_in _ cs1) as [[]|]; cbn [rbind]; [done| |done].
    by destruct (True_in _ cs2) as [[]|].
  - cbn [test]. rewrite False_not_in_app. cbn [False_not_in test].
    destruct (False_not_in _ cs1) as [[]|]; cbn [rbind]; [|done|done].
    by destruct (False_not_in _ cs2) as [[]|].
Qed.

(** ** More on the rule compiler *)

Section CompilerMore.

Variable repr : pyval -> string.
Variable repr_set : gset hashable -> string.

Lemma concrete_condition_unknown (name : string) (options : pyval) :
  name ∉ condition_names ->
  concrete_condition repr_set name options = Raise (KeyError (VStr name)).
Proof.
  intros Hname. rewrite concrete_condition_unfold.
  repeat match goal with
  | |- context [String.eqb name ?s] =>
      destruct (String.eqb_spec name s) as [->|_];
        [exfalso; apply Hname; unfold condition_names; set_solver|]
  end.
  done.
Qed.

(** The prologue of a turn, for a definition with endpoint, methods of the
    vocabulary, and conditions. *)
Lemma compile_rule_prologue (counter : nat) (d : pydict) (chk : option condition)
    (endpoint methods conditions : pyval) (ms : list pyval) :
  dict_lookup "endpoint" d = Some endpoint ->
  dict_lookup "methods" d = Some methods ->
  py_iter methods = Ok ms -> Forall valid_method ms ->
  dict_lookup "conditions" d = Some conditions ->
  compile_rule repr repr_set counter (VDict d) chk
  = (n <- py_len conditions ;;
     checker' <-
       (if Nat.ltb 1 n
        then c <- except_option_errors repr counter (VDict d)
                    (concrete_condition repr_set "AllOf" conditions) ;;
             Ok (Some c)
        else entries <- py_items conditions ;;
             assign_checker repr repr_set counter (VDict d) entries chk) ;;
     match checker' with
     | Some c =>
         Ok ({| endpoint_pattern := endpoint; http_methods := methods; checker := c |},
             checker')
     | None => Raise UnboundLocalError
     end).
Proof.
  intros He Hm Hms Hvalid Hcs. unfold compile_rule. cbn [py_getitem].
  rewrite He, Hm, Hcs. cbn [except_KeyError rbind]. rewrite Hms. cbn [rbind].
  by rewrite (check_methods_valid repr _ _ _ Hvalid).
Qed.

(** X10. A condition name that is not one of the seven classes is refused
    whatever its options, and a rule that uses it fails with
    [InvalidRuleDefinition] and the message "Missing option <name>." *)
Theorem unknown_condition_name (name : string) (options : pyval) :
  name ∉ condition_names ->
  concrete_condition repr_set name options = Raise (KeyError (VStr name))
  /\ forall counter d chk endpoint methods ms,
       dict_lookup "endpoint" d = Some endpoint ->
       dict_lookup "methods" d = Some methods ->
       py_iter methods = Ok ms -> Forall valid_method ms ->
       dict_lookup "conditions" d = Some (VDict [(name, options)]) ->
       compile_rule repr repr_set counter (VDict d) chk
       = Raise (InvalidRuleDefinition ("Missing option " ++ repr (VStr name) ++ ".")
                  counter (VDict d)).
Proof.
  intros Hname. split; [by apply concrete_condition_unknown|].
  intros counter d chk endpoint methods ms He Hm Hms Hvalid Hcs.
  rewrite (compile_rule_prologue _ _ _ _ _ _ _ He Hm Hms Hvalid Hcs).
  cbn [py_len List.length Nat.ltb Nat.leb rbind py_items assign_checker].
  by rewrite (concrete_condition_unknown _ _ Hname).
Qed.

(** X11. The root of a compiled rule: one condition entry becomes the root
    itself, two or more entries become the children of an [AllOf], in the
    order of the definition. *)
Theorem compiled_root (counter : nat) (d : pydict) (chk : option condition)
    (endpoint methods : pyval) (ms : list pyval) (entries : list (string * pyval))
    (cs : list condition) :
  dict_lookup "endpoint" d = Some endpoint ->
  dict_lookup "methods" d = Some methods ->
  py_iter methods = Ok ms -> Forall valid_method ms ->
  dict_lookup "conditions" d = Some (VDict entries) ->
  entries <> [] ->
  build_children repr_set entries = Ok cs ->
  compile_rule repr repr_set counter (VDict d) chk
  = Ok ({| endpoint_pattern := endpoint; http_methods := methods;
           checker := root_of cs |}, Some (root_of cs)).
Proof.
  intros He Hm Hms Hvalid Hcs Hne Hbuild.
  rewrite (compile_rule_prologue _ _ _ _ _ _ _ He Hm Hms Hvalid Hcs).
  destruct entries as [|[n o] [|entry entries]]; [done| |].
  - cbn [py_len List.length Nat.ltb Nat.leb rbind py_items assign_checker].
    unfold build_children in Hbuild. cbn [mapM fst snd] in Hbuild.
    destruct (concrete_condition repr_set n o) as [c|]; [|done].
    by injection Hbuild as <-.
  - cbn [py_len List.length Nat.ltb Nat.leb rbind].
    rewrite concrete_condition_AllOf. cbn [children_of]. rewrite Hbuild.
    cbn [rbind except_option_errors].
    unfold build_children in Hbuild. cbn [mapM] in Hbuild.
    destruct (concrete_condition _ _ _) as [c1|]; [|done]. cbn [rbind] in Hbuild.
    destruct (concrete_condition _ _ _) as [c2|]; [|done]. cbn [rbind] in Hbuild.
    destruct (mapM _ entries) as [cs'|]; [|done].
    by injection Hbuild as <-.
Qed.

(** A successful turn leaves [checker] bound to the checker of its rule. *)
Lemma compile_rule_checker (counter : nat) (definition : pyval)
    (chk : option condition) (rc : rule * option condition) :
  compile_rule repr repr_set counter definition chk = Ok rc ->
  snd rc = Some (checker (fst rc)).
Proof.
  unfold compile_rule.
  intros (e & _ & H)%rbind_Ok.
  apply rbind_Ok in H as (m & _ & H).
  apply rbind_Ok in H as (ms & _ & H).
  apply rbind_Ok in H as (u & _ & H).
  apply rbind_Ok in H as (cs & _ & H).
  apply rbind_Ok in H as (n & _ & H).
  apply rbind_Ok in H as (chk' & _ & H).
  destruct chk' as [c|]; [|done]. by injection H as <-.
Qed.

(** X12. A rule definition whose conditions mapping is empty binds no
    checker of its own: as the first rule it stops the constructor with
    [UnboundLocalError]; after another rule it silently takes the checker of
    the rule before it. *)
Theorem empty_conditions_reuse_checker (counter : nat) (d : pydict)
    (endpoint methods : pyval) (ms : list pyval) :
  dict_lookup "endpoint" d = Some endpoint ->
  dict_lookup "methods" d = Some methods ->
  py_iter methods = Ok ms -> Forall valid_method ms ->
  dict_lookup "conditions" d = Some (VDict []) ->
  compile_rule repr repr_set counter (VDict d) None = Raise UnboundLocalError
  /\ (forall c,
        compile_rule repr repr_set counter (VDict d) (Some c)
        = Ok ({| endpoint_pattern := endpoint; http_methods := methods; checker := c |},
              Some c))
  /\ (forall before r chk chk0,
        compile_rule repr repr_set counter before chk0 = Ok (r, chk) ->
        compile_rules repr repr_set counter [before; VDict d] [] chk0
        = Ok [r; {| endpoint_pattern := endpoint; http_methods := methods;
                    checker := checker r |}]).
Proof.
  intros He Hm Hms Hvalid Hcs.
  assert (Hturn : forall n chk,
             compile_rule repr repr_set n (VDict d) chk
             = match chk with
               | Some c =>
                   Ok ({| endpoint_pattern := endpoint; http_methods := methods;
                          checker := c |}, Some c)
               | None => Raise UnboundLocalError
               end).
  { intros n chk.
    rewrite (compile_rule_prologue _ _ _ _ _ _ _ He Hm Hms Hvalid Hcs).
    by destruct chk. }
  split_and!.
  - apply Hturn.
  - intros c. apply Hturn.
  - intros before r chk chk0 Hbefore. cbn [compile_rules]. rewrite Hbefore.
    cbn [rbind fst snd app].
    apply compile_rule_checker in Hbefore. cbn [fst snd] in Hbefore. subst chk.
    by rewrite Hturn.
Qed.

Lemma compile_rules_compiled_from (definitions : list pyval) :
  forall (counter : nat) (rules rs : list rule) (chk : option condition),
    compile_rules repr repr_set counter definitions rules chk = Ok rs ->
    exists rs', rs = (rules ++ rs')%list /\ Forall2 compiled_from definitions rs'.
Proof.
  induction definitions as [|def defs IH]; intros counter rules rs chk Hrs.
  - injection Hrs as <-. exists []. split; [by rewrite app_nil_r | constructor].
  - cbn [compile_rules] in Hrs.
    destruct (compile_rule repr repr_set counter def chk) as [rc|] eqn:Hrc; [|done].
    cbn [rbind] in Hrs. destruct (IH _ _ _ _ Hrs) as (rs' & -> & Hall).
    exists (fst rc :: rs'). split; [by rewrite <- app_assoc|].
    constructor; [|done].
    apply compile_rule_Ok_inv in Hrc as (d & ms & -> & He & Hm & _).
    by exists d.
Qed.

(** X13. A compiled rule list has one rule per definition, in the order of
    the definitions, each with the endpoint and the methods of its
    definition. *)
Theorem compilation_keeps_order (security_definitions : pydict)
    (rules_value : pyval) (definitions : list pyval) (rules : list rule) :
  dict_lookup "rules" security_definitions = Some rules_value ->
  py_iter rules_value = Ok definitions ->
  AccessControl repr repr_set (Some security_definitions) = Ok rules ->
  Forall2 compiled_from definitions rules
  /\ List.length rules = List.length definitions.
Proof.
  intros Hrules Hdefs. unfold AccessControl. rewrite Hrules, Hdefs. cbn [rbind].
  intros (rs' & -> & Hall)%compile_rules_compiled_from.
  split; [exact Hall|]. by rewrite (Forall2_length _ _ _ Hall).
Qed.

End CompilerMore.

Lemma valid_method_DELETE : Forall valid_method [VStr "DELETE"].
Proof.
  constructor; [|constructor]. exists (HStr "DELETE"). split; [reflexivity|].
  unfold VALID_HTTP_METHODS. set_solver.
Qed.

Lemma valid_method_GET : Forall valid_method [VStr "GET"].
Proof.
  constructor; [|constructor]. exists (HStr "GET"). split; [reflexivity|].
  unfold VALID_HTTP_METHODS. set_solver.
Qed.

Lemma unknown_condition_name_witness :
  ("Organization" ∉ condition_names)
  /\ concrete_condition Sample.repr_set "Organization" (VList [VStr "surf"])
     = Raise (KeyError (VStr "Organization")).
Proof.
  assert (Hname : "Organization" ∉ condition_names).
  { unfold condition_names. intros H.
    repeat (apply elem_of_cons in H as [H|H]; [discriminate|]).
    by apply elem_of_nil in H. }
  split; [exact Hname|].
  exact (proj1 (unknown_condition_name Sample.repr Sample.repr_set "Organization"
                  (VList [VStr "surf"]) Hname)).
Defined.

Lemma compiled_root_witness :
  compile_rule Sample.repr Sample.repr_set 0 (VDict role_and_team_rule) None
  = Ok ({| endpoint_pattern := VStr "admin.*"; http_methods := VList [VStr "DELETE"];
           checker := AllOf [SABRoles (list_to_set ["Infrabeheerder"]);
                             Teams (list_to_set ["noc-engineers"])] |},
        Some (AllOf [SABRoles (list_to_set ["Infrabeheerder"]);
                     Teams (list_to_set ["noc-engineers"])])).
Proof.
  apply (compiled_root Sample.repr Sample.repr_set 0%nat role_and_team_rule None
           (VStr "admin.*") (VList [VStr "DELETE"]) [VStr "DELETE"]
           [("SABRoles", VList [VStr "infrabeheerder"]); ("Teams", VList [VStr "noc"])]
           [SABRoles (list_to_set ["Infrabeheerder"]);
            Teams (list_to_set ["noc-engineers"])]
           eq_refl eq_refl eq_refl valid_method_DELETE eq_refl);
    [done | reflexivity].
Defined.

Lemma empty_conditions_reuse_checker_witness :
  compile_rule Sample.repr Sample.repr_set 0 (VDict no_conditions_rule) None
  = Raise UnboundLocalError
  /\ exists r,
       compile_rules Sample.repr Sample.repr_set 0
         [VDict role_and_team_rule; VDict no_conditions_rule] [] None
       = Ok [r; {| endpoint_pattern := VStr "status.*";
                   http_methods := VList [VStr "GET"]; checker := checker r |}].
Proof.
  destruct (empty_conditions_reuse_checker Sample.repr Sample.repr_set 0%nat
              no_conditions_rule (VStr "status.*") (VList [VStr "GET"]) [VStr "GET"]
              eq_refl eq_refl eq_refl valid_method_GET eq_refl)
    as (Hfirst & _ & Hafter).
  split; [exact Hfirst|]. eexists.
  assert (Hbefore :
            compile_rule Sample.repr Sample.repr_set 0 (VDict role_and_team_rule) None
            = Ok ({| endpoint_pattern := VStr "admin.*";
                     http_methods := VList [VStr "DELETE"];
                     checker := AllOf [SABRoles (list_to_set ["Infrabeheerder"]);
                                       Teams (list_to_set ["noc-engineers"])] |},
                  Some (AllOf [SABRoles (list_to_set ["Infrabeheerder"]);
                               Teams (list_to_set ["noc-engineers"])])))
    by reflexivity.
  exact (Hafter (VDict role_and_team_rule) _ _ None Hbefore).
Defined.

Lemma compilation_keeps_order_witness :
  exists rules,
    AccessControl Sample.repr Sample.repr_set
      (Some [("rules", VList [orders_rule; VDict role_and_team_rule])]) = Ok rules
    /\ Forall2 compiled_from [orders_rule; VDict role_and_team_rule] rules
    /\ List.length rules = 2%nat.
Proof.
  destruct (AccessControl Sample.repr Sample.repr_set
              (Some [("rules", VList [orders_rule; VDict role_and_team_rule])]))
    as [rules|e] eqn:Hrules; [|by vm_compute in Hrules].
  exists rules. split; [reflexivity|].
  exact (compilation_keeps_order Sample.repr Sample.repr_set
           [("rules", VList [orders_rule; VDict role_and_team_rule])]
           (VList [orders_rule; VDict role_and_team_rule])
           [orders_rule; VDict role_and_team_rule] rules eq_refl eq_refl Hrules).
Defined.

(** ** More on the evaluator *)

Section EvaluatorMore.

Variable fnmatch : string -> string -> bool.
Variable repr : pyval -> string.
Variable repr_set : gset hashable -> string.

Lemma str_in_strings (s : string) (l : list string) :
  str_in s (VList (VStr <$> l)) = Ok (bool_decide (s ∈ l)).
Proof.
  cbn [str_in]. f_equal. induction l as [|x l IH].
  - by rewrite bool_decide_eq_false_2 by apply not_elem_of_nil.
  - rewrite fmap_cons. cbn [existsb is_VStr]. rewrite IH.
    destruct (String.eqb_spec s x) as [->|Hne]; cbn [orb].
    + by rewrite bool_decide_eq_true_2 by (by left).
    + apply bool_decide_ext. rewrite elem_of_cons.
      split; [by right | by intros [->|?]].
Qed.

(** The match of a rule with a string pattern and a list of method names,
    as a boolean. *)
Lemma rule_matches_strings (e m pat : string) (ms : list string) (c : condition) :
  rule_matches fnmatch e m
    {| endpoint_pattern := VStr pat; http_methods := VList (VStr <$> ms); checker := c |}
  = Ok (fnmatch e pat && (bool_decide ("*" ∈ ms) || bool_decide (m ∈ ms))).
Proof.
  unfold rule_matches. cbn [endpoint_pattern http_methods].
  destruct (fnmatch e pat); [|done]. rewrite !str_in_strings. cbn [rbind andb].
  by destruct (bool_decide ("*" ∈ ms)).
Qed.

(** X14. A rule with a string pattern and a list of method names is a
    candidate exactly when the pattern matches the endpoint and the list
    holds "*" or the method of the request; the match itself never raises. *)
Theorem rule_match_semantics (e m pat : string) (ms : list string) (c : condition) :
  (exists b, rule_matches fnmatch e m
               {| endpoint_pattern := VStr pat; http_methods := VList (VStr <$> ms);
                  checker := c |} = Ok b)
  /\ (rule_matches fnmatch e m
        {| endpoint_pattern := VStr pat; http_methods := VList (VStr <$> ms);
           checker := c |} = Ok true
      <-> fnmatch e pat = true /\ ("*" ∈ ms \/ m ∈ ms)).
Proof.
  rewrite rule_matches_strings. split; [by eexists|]. split.
  - intros [= H]. apply andb_true_iff in H as [Hf H]. split; [done|].
    apply orb_true_iff in H as [H|H]; apply bool_decide_eq_true in H;
      [by left | by right].
  - intros [-> [H|H]]; cbn [andb]; f_equal; apply orb_true_iff; [left|right];
      by apply bool_decide_eq_true.
Qed.

(** X15. When no rule's pattern matches the endpoint, the verdict is the
    denial "No rules matched endpoint ... and HTTP method ...", whatever the
    methods, the conditions and the user. *)
Theorem no_pattern_match_denies (rules : list rule) (view : UserAttributes.t)
    (req : request) :
  rules <> [] ->
  Forall (fun r => exists pat, endpoint_pattern r = VStr pat
                               /\ fnmatch (request_endpoint req) pat = false) rules ->
  is_allowed fnmatch repr repr_set rules view req
  = Raise (Forbidden ("No rules matched endpoint " ++ request_endpoint req
                      ++ " and HTTP method " ++ method req)).
Proof.
  intros Hne Hall.
  assert (Hms : matching fnmatch (request_endpoint req) (method req) rules = Ok []).
  { clear Hne. induction Hall as [|r rules (pat & Hpat & Hno) _ IH]; [done|].
    cbn [matching]. unfold rule_matches at 1. rewrite Hpat, Hno. cbn [rbind].
    by rewrite IH. }
  destruct rules as [|r rules]; [done|].
  unfold is_allowed. cbv zeta. by rewrite Hms.
Qed.

(** X16. A rule list with one rule that matches the request: the verdict is
    [Allow] when the rule's condition tests true, and a denial with the
    description of the condition when it tests false. *)
Theorem single_rule_verdict (pat : string) (ms : list string) (c : condition)
    (view : UserAttributes.t) (req : request) :
  fnmatch (request_endpoint req) pat = true ->
  "*" ∈ ms \/ method req ∈ ms ->
  (test c view req = Ok true ->
   decide fnmatch repr repr_set
     [ {| endpoint_pattern := VStr pat; http_methods := VList (VStr <$> ms);
          checker := c |} ] view req = Ok Allow)
  /\ (test c view req = Ok false ->
      decide fnmatch repr repr_set
        [ {| endpoint_pattern := VStr pat; http_methods := VList (VStr <$> ms);
             checker := c |} ] view req = Ok (Deny (str repr repr_set c))).
Proof.
  intros Hpat Hm. unfold decide, is_allowed. cbv zeta. cbn [matching].
  rewrite rule_matches_strings, Hpat. cbn [andb].
  assert (Hacc : bool_decide ("*" ∈ ms) || bool_decide (method req ∈ ms) = true).
  { destruct Hm as [H|H]; rewrite (bool_decide_eq_true_2 _ H);
      [done | by rewrite orb_true_r]. }
  rewrite Hacc. cbn [rbind checker List.length Nat.ltb Nat.leb].
  split; by intros ->.
Qed.

(** X17. A rule whose list of methods is empty is never a candidate: a rule
    list made of such rules denies every request with "No rules matched". *)
Theorem empty_methods_never_match (rules : list rule) (view : UserAttributes.t)
    (req : request) :
  rules <> [] ->
  Forall (fun r => (exists pat, endpoint_pattern r = VStr pat)
                   /\ http_methods r = VList []) rules ->
  is_allowed fnmatch repr repr_set rules view req
  = Raise (Forbidden ("No rules matched endpoint " ++ request_endpoint req
                      ++ " and HTTP method " ++ method req)).
Proof.
  intros Hne Hall.
  assert (Hms : matching fnmatch (request_endpoint req) (method req) rules = Ok []).
  { clear Hne. induction Hall as [|r rules [[pat Hpat] Hm] _ IH]; [done|].
    cbn [matching]. unfold rule_matches at 1. rewrite Hpat, Hm.
    destruct (fnmatch _ pat); cbn [str_in existsb rbind]; by rewrite IH. }
  destruct rules as [|r rules]; [done|].
  unfold is_allowed. cbv zeta. by rewrite Hms.
Qed.

Lemma matching_app (e m : string) (rules extra : list rule) (ms : list condition) :
  matching fnmatch e m (rules ++ extra) = Ok ms ->
  exists ms1 ms2,
    matching fnmatch e m rules = Ok ms1 /\ matching fnmatch e m extra = Ok ms2
    /\ ms = (ms1 ++ ms2)%list.
Proof.
  revert ms. induction rules as [|r rules IH]; intros ms Hms.
  - exists [], ms. by split_and!.
  - cbn [app matching] in *.
    destruct (rule_matches fnmatch e m r) as [b|]; [|done]. cbn [rbind] in *.
    destruct (matching fnmatch e m (rules ++ extra)) as [rest|]; [|done].
    cbn [rbind] in Hms. injection Hms as <-.
    destruct (IH rest eq_refl) as (ms1 & ms2 & -> & -> & ->).
    cbn [rbind]. eexists _, ms2. split_and!; try done. by destruct b.
Qed.

(** X18. Rules only add ways to be allowed: when the tests of the candidates
    return, a request that a rule list allows is still allowed after more
    rules are appended. *)
Theorem more_rules_never_revoke (rules extra : list rule) (view : UserAttributes.t)
    (req : request) (ms : list condition) :
  matching fnmatch (request_endpoint req) (method req) (rules ++ extra) = Ok ms ->
  Forall (fun c => returns c view req) ms ->
  decide fnmatch repr repr_set rules view req = Ok Allow ->
  decide fnmatch repr repr_set (rules ++ extra) view req = Ok Allow.
Proof.
  intros Hms Hret Hallow.
  destruct (matching_app _ _ _ _ _ Hms) as (ms1 & ms2 & Hms1 & Hms2 & ->).
  apply Forall_app in Hret as Hret12. destruct Hret12 as [Hret1 Hret2].
  apply (decide_by_candidates fnmatch repr repr_set rules view req ms1 Hms1 Hret1)
    in Hallow.
  apply (decide_by_candidates fnmatch repr repr_set _ view req _ Hms Hret).
  apply Exists_app. by left.
Qed.

Lemma str_in_iterable (s : string) (v : pyval) (ms : list pyval) :
  py_iter v = Ok ms -> exists b, str_in s v = Ok b.
Proof. destruct v; try done; intros _; by eexists. Qed.

Lemma matching_returns (e m : string) (rules : list rule) :
  Forall (fun r => (exists pat, endpoint_pattern r = VStr pat)
                   /\ exists ms, py_iter (http_methods r) = Ok ms) rules ->
  exists ms, matching fnmatch e m rules = Ok ms /\ ms ⊆ (checker <$> rules).
Proof.
  induction 1 as [|r rules [[pat Hpat] [ms0 Hms0]] _ (ms & IH & Hsub)].
  - exists []. by split.
  - cbn [matching]. unfold rule_matches at 1. rewrite Hpat, IH.
    destruct (str_in_iterable "*" _ _ Hms0) as [b1 Hb1].
    destruct (str_in_iterable m _ _ Hms0) as [b2 Hb2].
    rewrite fmap_cons.
    destruct (fnmatch e pat); cbn [rbind].
    + rewrite Hb1. cbn [rbind]. destruct b1; cbn [rbind].
      * eexists. split; [done|]. by apply list_subseteq_skip.
      * rewrite Hb2. cbn [rbind]. eexists. split; [done|].
        destruct b2; [by apply list_subseteq_skip | by apply list_subseteq_cons].
    + eexists. split; [done|]. by apply list_subseteq_cons.
Qed.

(** X19. The rules that [AccessControl] compiles can always be matched: when
    their endpoints are strings, collecting the candidates for a request
    raises nothing. *)
Theorem compiled_rules_match (security_definitions : option pydict)
    (rules : list rule) (e m : string) :
  AccessControl repr repr_set security_definitions = Ok rules ->
  Forall (fun r => exists pat, endpoint_pattern r = VStr pat) rules ->
  exists ms, matching fnmatch e m rules = Ok ms.
Proof.
  intros Hrules Hpat.
  assert (Hmethods : Forall methods_in_vocabulary rules).
  { unfold AccessControl in Hrules.
    destruct security_definitions as [d|]; [|by injection Hrules as <-].
    destruct (dict_lookup "rules" d) as [v|]; [|by injection Hrules as <-].
    destruct (py_iter v) as [defs|]; [|done]. cbn [rbind] in Hrules.
    eapply compile_rules_methods; [exact Hrules | constructor]. }
  destruct (matching_returns e m rules) as (ms & Hms & _); [|by exists ms].
  rewrite Forall_forall in Hpat, Hmethods. apply Forall_forall. intros r Hr.
  split; [by apply Hpat|]. destruct (Hmethods r Hr) as (ms & Hms & _). by exists ms.
Qed.

End EvaluatorMore.

(** ** The evaluator on well-formed input *)

Lemma hashable_params_children (cs : list condition) :
  (fix all (cs : list condition) : Prop :=
     match cs with
     | [] => True
     | c' :: cs' => hashable_params c' /\ all cs'
     end) cs <-> Forall hashable_params cs.
Proof.
  induction cs as [|c cs IH]; [by split|]. rewrite Forall_cons, <- IH. done.
Qed.

Lemma valid_claims_sets (claims : UserAttributes.t) :
  valid_claims claims ->
  (exists s, UserAttributes.roles claims = Ok s)
  /\ (exists s, UserAttributes.teams claims = Ok s)
  /\ (exists s, UserAttributes.organization_codes claims = Ok s)
  /\ (exists s, UserAttributes.organization_guids claims = Ok s)
  /\ (exists s, UserAttributes.scopes claims = Ok s).
Proof.
  intros (Hents & Hmems & Hscope).
  unfold UserAttributes.roles, UserAttributes.teams, UserAttributes.organization_codes,
    UserAttributes.organization_guids, UserAttributes.scopes,
    UserAttributes.entitlements, UserAttributes.memberships, get_default.
  assert (He : exists l, default (VList []) (dict_lookup "eduperson_entitlement" claims)
                         = VList (VStr <$> l)).
  { destruct (dict_lookup "eduperson_entitlement" claims) as [v|];
      [by apply Hents | by exists []]. }
  assert (Hm : exists l, default (VList []) (dict_lookup "edumember_is_member_of" claims)
                         = VList (VStr <$> l)).
  { destruct (dict_lookup "edumember_is_member_of" claims) as [v|];
      [by apply Hmems | by exists []]. }
  destruct He as [ents ->], Hm as [mems ->]. cbn [py_iter rbind].
  split_and!; try apply strip_prefix_strings.
  destruct (dict_lookup "scope" claims) as [v|]; [|by eexists].
  destruct (Hscope v eq_refl) as [[s ->]|(l & -> & Hl)]; [by eexists|].
  unfold py_set.
  assert (Hhs : exists hs, mapM hash_of l = Ok hs).
  { clear -Hl. induction l as [|x l IH]; [by eexists|].
    apply Forall_cons in Hl as [[h Hh] Hl]. destruct (IH Hl) as [hs Hhs].
    cbn [mapM]. rewrite Hh, Hhs. by eexists. }
  destruct Hhs as [hs ->]. by eexists.
Qed.

Lemma dict_get_hashable (d : pydict) (param : pyval) :
  is_hashable param -> Forall (fun kv => is_hashable (snd kv)) d ->
  exists v, dict_get d param = Ok v /\ is_hashable v.
Proof.
  intros [h Hh] Hd. unfold dict_get. rewrite Hh. cbn [rbind].
  assert (Hnone : is_hashable VNone) by (by eexists).
  destruct h as [| |s]; try (by eexists). unfold dict_lookup.
  destruct (List.find _ d) as [kv|] eqn:Hfind; [|by eexists].
  eexists. split; [done|]. cbn. apply find_some in Hfind as [Hin _].
  rewrite Forall_forall in Hd. apply Hd. by apply list_elem_of_In.
Qed.

(** On well-formed input [test] returns a boolean. *)
Lemma test_returns_valid (claims : UserAttributes.t) (req : request) (c : condition) :
  valid_claims claims -> valid_request req -> hashable_params c ->
  returns c claims req.
Proof.
  intros Hclaims (Hpath & Hquery & Hjson).
  destruct (valid_claims_sets claims Hclaims)
    as ([R HR] & [T HT] & [C HC] & [G HG] & [S HS]).
  induction c as [t|r|t|s|cs IH|cs IH|w p] using condition_nested_ind;
    intros Hp; unfold returns; cbn [test].
  - rewrite HC. by eexists.
  - rewrite HR. by eexists.
  - rewrite HT. by eexists.
  - rewrite HS. by eexists.
  - apply True_in_returns. cbn [hashable_params] in Hp.
    apply hashable_params_children in Hp.
    rewrite Forall_forall in IH, Hp. apply Forall_forall. intros c Hc.
    by apply IH, Hp.
  - apply False_not_in_returns. cbn [hashable_params] in Hp.
    apply hashable_params_children in Hp.
    rewrite Forall_forall in IH, Hp. apply Forall_forall. intros c Hc.
    by apply IH, Hp.
  - cbn [hashable_params] in Hp. unfold OrganizationGUID_test.
    assert (Hin : forall v, is_hashable v -> exists b, py_in_set v (str_set G) = Ok b).
    { intros v [h Hh]. unfold py_in_set. rewrite Hh. by eexists. }
    destruct w.
    + destruct (dict_get_hashable _ _ Hp Hpath) as (v & -> & Hv).
      cbn [rbind]. rewrite HG. by apply Hin.
    + destruct (dict_get_hashable _ _ Hp Hquery) as (v & -> & Hv).
      cbn [rbind]. rewrite HG. by apply Hin.
    + destruct Hjson as [->|(d & -> & Hd)]; [by eexists|].
      destruct (dict_get_hashable _ _ Hp Hd) as (v & -> & Hv).
      cbn [rbind]. rewrite HG. by apply Hin.
Qed.

(** X20. On well-formed input no test raises: for claims whose list claims
    are lists of strings and whose scope is a string or a list of hashable
    values, a request whose parameters are hashable and whose body is absent
    or a JSON object, and a condition whose parameter names are hashable,
    [test] returns a boolean. *)
Theorem tests_return (claims : UserAttributes.t) (req : request) (c : condition) :
  valid_claims claims -> valid_request req -> hashable_params c ->
  exists b, test c claims req = Ok b.
Proof. apply test_returns_valid. Qed.

Lemma valid_claims_sample : valid_claims sample_claims.
Proof.
  split_and!.
  - intros v [= <-].
    by exists ["urn:mace:surfnet.nl:surfnet.nl:sab:role:Infraverantwoordelijke"].
  - intros v [= <-].
    by exists ["urn:collab:group:surfteams.nl:nl:surfnet:diensten:noc-engineers"].
  - intros v [= <-]. left. by eexists.
Qed.

Lemma valid_request_customer : valid_request customer_request.
Proof.
  split_and!; [constructor | constructor |].
  right. eexists. split; [reflexivity|]. repeat constructor. by eexists.
Qed.

Lemma tests_return_witness :
  returns (AllOf [Scopes {[HStr "write"]}; OrganizationGUID Json (VStr "customerId")])
    sample_claims customer_request.
Proof.
  apply tests_return; [exact valid_claims_sample | exact valid_request_customer |].
  cbn. split_and!; try done. by eexists.
Defined.

(** X21. The evaluator never raises on well-formed input: for rules with a
    string pattern, iterable methods and hashable parameter names, and
    well-formed claims and request, [is_allowed] either returns or raises
    [Forbidden]; that is, a verdict exists. *)
Theorem evaluator_returns_verdict (fnmatch : string -> string -> bool)
    (repr : pyval -> string) (repr_set : gset hashable -> string)
    (rules : list rule) (claims : UserAttributes.t) (req : request) :
  Forall matchable rules -> valid_claims claims -> valid_request req ->
  exists v, decide fnmatch repr repr_set rules claims req = Ok v.
Proof.
  intros Hrules Hclaims Hreq.
  destruct (matching_returns fnmatch (request_endpoint req) (method req) rules)
    as (ms & Hms & Hsub).
  { eapply Forall_impl; [exact Hrules|]. by intros r (Hpat & Hm & _). }
  assert (Hret : Forall (fun c => returns c claims req) ms).
  { apply Forall_forall. intros c Hc. apply test_returns_valid; try done.
    apply Hsub, list_elem_of_fmap in Hc as (r & -> & Hr).
    rewrite Forall_forall in Hrules. by apply Hrules. }
  destruct (decide_by_candidates fnmatch repr repr_set rules claims req ms Hms Hret)
    as [_ [b Hb]].
  destruct (decide fnmatch repr repr_set rules claims req) as [v|]; [by exists v | done].
Qed.

Lemma evaluator_returns_verdict_witness :
  exists v, decide Sample.fnmatch Sample.repr Sample.repr_set guarded_rules
              sample_claims customer_request = Ok v.
Proof.
  apply evaluator_returns_verdict;
    [| exact valid_claims_sample | exact valid_request_customer].
  constructor; [|constructor]. split_and!; [by eexists | by eexists |].
  cbn. split_and!; try done. by eexists.
Defined.

Lemma no_pattern_match_denies_witness :
  is_allowed Sample.fnmatch Sample.repr Sample.repr_set admin_rules sample_claims
    sample_request
  = Raise (Forbidden "No rules matched endpoint orders.get and HTTP method GET").
Proof.
  apply (no_pattern_match_denies Sample.fnmatch Sample.repr Sample.repr_set admin_rules
           sample_claims sample_request); [done|].
  repeat constructor; eexists; (split; [reflexivity | by vm_compute]).
Defined.

Lemma single_rule_verdict_witness :
  decide Sample.fnmatch Sample.repr Sample.repr_set [read_rule] sample_claims
    sample_request = Ok Allow.
Proof.
  apply (single_rule_verdict Sample.fnmatch Sample.repr Sample.repr_set "orders.*"
           ["GET"] (Scopes {[HStr "read"]}) sample_claims sample_request).
  - by vm_compute.
  - right. by constructor.
  - vm_compute. reflexivity.
Defined.

Lemma empty_methods_never_match_witness :
  is_allowed Sample.fnmatch Sample.repr Sample.repr_set [no_method_rule] sample_claims
    sample_request
  = Raise (Forbidden "No rules matched endpoint orders.get and HTTP method GET").
Proof.
  apply (empty_methods_never_match Sample.fnmatch Sample.repr Sample.repr_set
           [no_method_rule] sample_claims sample_request); [done|].
  repeat constructor. by eexists.
Defined.

Lemma more_rules_never_revoke_witness :
  decide Sample.fnmatch Sample.repr Sample.repr_set ([read_rule] ++ admin_rules)%list
    sample_claims sample_request = Ok Allow.
Proof.
  apply (more_rules_never_revoke Sample.fnmatch Sample.repr Sample.repr_set
           [read_rule] admin_rules sample_claims sample_request
           [Scopes {[HStr "read"]}]).
  - vm_compute. reflexivity.
  - repeat constructor. exists true. vm_compute. reflexivity.
  - vm_compute. reflexivity.
Defined.

Lemma compiled_rules_match_witness :
  exists ms,
    matching Sample.fnmatch "orders.get" "GET"
      [ {| endpoint_pattern := VStr "orders.*"; http_methods := VList [VStr "GET"];
           checker := Scopes {[HStr "read"]} |} ] = Ok ms.
Proof.
  apply (compiled_rules_match Sample.fnmatch Sample.repr Sample.repr_set
           (Some [("rules", VList [orders_rule])])).
  - vm_compute. reflexivity.
  - repeat constructor. by eexists.
Defined.

(** ** The two views over the claims *)

(** X22. [OIDCUserModel] (fastapi.py) and [UserAttributes]
    (access_control.py) derive the same roles, teams, organization codes,
    organization GUIDs, memberships, entitlements, display name and user
    name from the same claims, exceptions included. *)
Theorem oidc_view_agrees (claims : pydict) :
  OIDCUserModel.roles claims = UserAttributes.roles claims
  /\ OIDCUserModel.teams claims = UserAttributes.teams claims
  /\ OIDCUserModel.organization_codes claims = UserAttributes.organization_codes claims
  /\ OIDCUserModel.organization_guids claims = UserAttributes.organization_guids claims
  /\ OIDCUserModel.memberships claims = UserAttributes.memberships claims
  /\ OIDCUserModel.entitlements claims = UserAttributes.entitlements claims
  /\ OIDCUserModel.display_name claims = UserAttributes.display_name claims
  /\ OIDCUserModel.user_name claims = Ok (UserAttributes.user_name claims).
Proof.
  split_and!; try reflexivity.
  unfold OIDCUserModel.user_name, UserAttributes.user_name, py_getitem, get_default.
  destruct (dict_lookup "user_name" claims); [done|].
  by destruct (dict_lookup "unspecified_id" claims).
Qed.

Lemma split_no_comma (s : string) :
  has_comma s = false -> split_space_comma s = split_space s.
Proof.
  induction s as [|c s IH]; [done|]. cbn [has_comma split_space_comma split_space].
  destruct (Ascii.eqb c ","); [done|]. rewrite orb_false_r. cbn [orb].
  intros H. by rewrite (IH H).
Qed.

(** X23. The two views give the same scopes when the scope claim is absent,
    a list, or a string without commas; [OIDCUserModel] alone also splits the
    string at commas. *)
Theorem oidc_scopes_agree (claims : pydict) :
  (dict_lookup "scope" claims = None ->
   OIDCUserModel.scopes claims = UserAttributes.scopes claims)
  /\ (forall l, dict_lookup "scope" claims = Some (VList l) ->
                OIDCUserModel.scopes claims = UserAttributes.scopes claims)
  /\ (forall s, dict_lookup "scope" claims = Some (VStr s) -> has_comma s = false ->
                OIDCUserModel.scopes claims = UserAttributes.scopes claims)
  /\ (forall s, dict_lookup "scope" claims = Some (VStr s) ->
                OIDCUserModel.scopes claims
                = Ok (list_to_set (HStr <$> split_space_comma s))).
Proof.
  unfold OIDCUserModel.scopes, UserAttributes.scopes, get_default. split_and!.
  - by intros ->.
  - by intros l ->.
  - intros s -> Hs. cbn [default id from_option]. by rewrite (split_no_comma s Hs).
  - by intros s ->.
Qed.

Lemma oidc_scopes_agree_witness :
  OIDCUserModel.scopes [("scope", VStr "read write")]
  = UserAttributes.scopes [("scope", VStr "read write")]
  /\ OIDCUserModel.scopes [("scope", VStr "read,write")]
     = Ok (list_to_set [HStr "read"; HStr "write"]).
Proof.
  destruct (oidc_scopes_agree [("scope", VStr "read write")]) as (_ & _ & Hsame & _).
  destruct (oidc_scopes_agree [("scope", VStr "read,write")]) as (_ & _ & _ & Hsplit).
  split; [exact (Hsame "read write" eq_refl eq_refl) | exact (Hsplit "read,write" eq_refl)].
Defined.

(** ** Client credentials *)

Section Credentials.

Import OAuthCredentials.

Variable post : call -> option response.
Variable repr : pyval -> string.

Lemma dict_lookup_set_eq (k : string) (v : pyval) (d : pydict) :
  dict_lookup k (dict_set k v d) = Some v.
Proof.
  unfold dict_lookup. induction d as [|[k0 v0] d IH]; cbn [dict_set List.find fst].
  - by rewrite String.eqb_refl.
  - destruct (String.eqb k0 k) eqn:Hk; cbn [List.find fst].
    + by rewrite String.eqb_refl.
    + by rewrite Hk.
Qed.

(** The call that [obtain_client_credentials_token] makes. *)
Lemma obtain_outcome (app_config : pydict) (url id secret : pyval) (force : bool) :
  force = true \/ has_access_token app_config = Ok false ->
  let server := [("oauth2_token_url", url); ("oauth2_client_id", id);
                 ("oauth2_secret", secret)] in
  let c := {| call_url := url;
              call_data := [("grant_type", VStr "client_credentials")];
              call_auth := (id, secret); call_timeout := 5 |} in
  let o := obtain_client_credentials_token post repr app_config url id secret force in
  calls o = [c]
  /\ ((exists f, returned o = inl f)
      /\ config o = dict_set AUTH_RESOURCE_SERVER (VDict server) app_config
      \/ (exists r json token,
            post c = Some r /\ ok r = true /\ json_body r = Some json
            /\ py_getitem json "access_token" = Ok token
            /\ returned o = inr tt
            /\ config o
               = dict_set AUTH_RESOURCE_SERVER
                   (VDict (server ++ [("access_token", token)])%list)
                   (dict_set AUTH_RESOURCE_SERVER (VDict server) app_config))).
Proof.
  intros Hcall server c.
  assert (Hskip : (if force then Ok false else has_access_token app_config) = Ok false)
    by (destruct Hcall as [->| ->]; [done | by destruct force]).
  unfold obtain_client_credentials_token. rewrite Hskip. fold server. fold c.
  destruct (post c) as [r|] eqn:Hpost; cbn [calls returned config];
    [|split; [done|]; left; split; [by eexists | done]].
  destruct (json_body r) as [json|] eqn:Hjson; cbn [calls returned config];
    [|split; [done|]; left; split; [by eexists | done]].
  destruct (ok r) eqn:Hok; cbn [negb calls returned config];
    [|split; [done|]; left; split; [by eexists | done]].
  destruct (py_getitem json "access_token") as [token|e] eqn:Htoken;
    cbn [calls returned config];
    [|split; [done|]; left; split; [by eexists | done]].
  split; [done|]. right. by exists r, json, token.
Qed.

(** X24. After [obtain_client_credentials_token] has posted the credentials
    and received an OK response whose JSON holds an access token, the token is
    in the configuration: [add_client_credentials_token_header] wraps the
    client with the header "Authorization: bearer <token>", and a further
    call that is not forced posts nothing and changes nothing. *)
Theorem obtained_token_is_used {C : Type} (client : C) (app_config : pydict)
    (url id secret url' id' secret' : pyval) (force : bool) (r : response)
    (json token : pyval) :
  force = true \/ has_access_token app_config = Ok false ->
  post {| call_url := url; call_data := [("grant_type", VStr "client_credentials")];
          call_auth := (id, secret); call_timeout := 5 |} = Some r ->
  ok r = true -> json_body r = Some json ->
  py_getitem json "access_token" = Ok token ->
  let o := obtain_client_credentials_token post repr app_config url id secret force in
  returned o = inr tt
  /\ add_client_credentials_token_header repr client (config o)
     = Ok (ApiClientProxy client [("Authorization", "bearer " ++ py_str repr token)])
  /\ obtain_client_credentials_token post repr (config o) url' id' secret' false
     = {| config := config o; calls := []; returned := inr tt |}.
Proof.
  intros Hcall Hpost Hok Hjson Htoken o.
  assert (Hskip : (if force then Ok false else has_access_token app_config) = Ok false)
    by (destruct Hcall as [->| ->]; [done | by destruct force]).
  assert (Ho : o = {| config :=
                        dict_set AUTH_RESOURCE_SERVER
                          (VDict [("oauth2_token_url", url); ("oauth2_client_id", id);
                                  ("oauth2_secret", secret); ("access_token", token)])
                          (dict_set AUTH_RESOURCE_SERVER
                             (VDict [("oauth2_token_url", url); ("oauth2_client_id", id);
                                     ("oauth2_secret", secret)]) app_config);
                      calls := [ {| call_url := url;
                                    call_data := [("grant_type", VStr "client_credentials")];
                                    call_auth := (id, secret); call_timeout := 5 |} ];
                      returned := inr tt |}).
  { unfold o, obtain_client_credentials_token.
    rewrite Hskip, Hpost, Hjson, Hok. cbn [negb]. by rewrite Htoken. }
  assert (Hret : returned o = inr tt) by (by rewrite Ho).
  assert (Hcfg : config o
                 = dict_set AUTH_RESOURCE_SERVER
                     (VDict [("oauth2_token_url", url); ("oauth2_client_id", id);
                             ("oauth2_secret", secret); ("access_token", token)])
                     (dict_set AUTH_RESOURCE_SERVER
                        (VDict [("oauth2_token_url", url); ("oauth2_client_id", id);
                                ("oauth2_secret", secret)]) app_config))
    by (by rewrite Ho).
  clearbody o.
    assert (Hhas : has_access_token (config o) = Ok true).
    { unfold has_access_token. rewrite Hcfg, dict_lookup_set_eq.
      cbn [str_in app existsb fst]. reflexivity. }
    split_and!; [exact Hret | |].
    + unfold add_client_credentials_token_header. rewrite Hhas. cbn [rbind py_getitem].
      rewrite Hcfg, dict_lookup_set_eq. reflexivity.
    + unfold obtain_client_credentials_token. by rewrite Hhas.
Qed.

(** X25. A call to the token endpoint that fails takes the stored token
    away: whenever [obtain_client_credentials_token] posts and does not
    return normally (the session raises, the response is not OK or not JSON,
    or the JSON has no access token), the configuration it leaves holds no
    access token, and [add_client_credentials_token_header] returns the plain
    client. *)
Theorem failed_call_drops_token {C : Type} (client : C) (app_config : pydict)
    (url id secret : pyval) (force : bool) (f : failure) :
  let o := obtain_client_credentials_token post repr app_config url id secret force in
  calls o <> [] -> returned o = inl f ->
  has_access_token (config o) = Ok false
  /\ add_client_credentials_token_header repr client (config o) = Ok (Client client).
Proof.
  intros o Hcalls Hf.
  assert (Hcall : force = true \/ has_access_token app_config = Ok false).
  { revert Hcalls. unfold o, obtain_client_credentials_token.
    destruct force; [by left|]. by destruct (has_access_token app_config) as [[]|]; [| right |]. }
  destruct (obtain_outcome app_config url id secret force Hcall)
    as [_ [[_ Hcfg]|(r & json & token & _ & _ & _ & _ & Hret & _)]].
  - fold o in Hcfg.
    assert (Hhas : has_access_token (config o) = Ok false).
    { unfold has_access_token. by rewrite Hcfg, dict_lookup_set_eq. }
    split; [exact Hhas|]. unfold add_client_credentials_token_header. by rewrite Hhas.
  - fold o in Hret. congruence.
Qed.

(** X26. [refresh_client_credentials_token] posts again with the stored
    credentials: after a successful [obtain_client_credentials_token], a
    refresh makes exactly the same call to the token endpoint. *)
Theorem refresh_repeats_call (app_config : pydict) (url id secret : pyval)
    (force : bool) :
  force = true \/ has_access_token app_config = Ok false ->
  let o := obtain_client_credentials_token post repr app_config url id secret force in
  returned o = inr tt ->
  calls (refresh_client_credentials_token post repr (config o)) = calls o
  /\ calls o = [ {| call_url := url;
                    call_data := [("grant_type", VStr "client_credentials")];
                    call_auth := (id, secret); call_timeout := 5 |} ].
Proof.
  intros Hcall o Hret.
  destruct (obtain_outcome app_config url id secret force Hcall)
    as [Hcalls [[[f Hf] _]|(r & json & token & _ & _ & _ & _ & _ & Hcfg)]].
  - fold o in Hf. congruence.
  - fold o in Hcalls, Hcfg. cbn [app] in Hcfg. split; [|exact Hcalls]. rewrite Hcalls.
    assert (Hserver : py_getitem (VDict (config o)) AUTH_RESOURCE_SERVER
                      = Ok (VDict [("oauth2_token_url", url); ("oauth2_client_id", id);
                                   ("oauth2_secret", secret); ("access_token", token)])).
    { cbn [py_getitem]. by rewrite Hcfg, dict_lookup_set_eq. }
    unfold refresh_client_credentials_token. rewrite Hserver.
    change (calls (obtain_client_credentials_token post repr (config o) url id secret true)
            = [ {| call_url := url;
                   call_data := [("grant_type", VStr "client_credentials")];
                   call_auth := (id, secret); call_timeout := 5 |} ]).
    apply (obtain_outcome (config o) url id secret true (or_introl eq_refl)).
Qed.

End Credentials.

Lemma obtained_token_is_used_witness :
  OAuthCredentials.add_client_credentials_token_header Sample.repr "client"
    (OAuthCredentials.config
       (OAuthCredentials.obtain_client_credentials_token granting_endpoint Sample.repr []
          (VStr "https://auth/token") (VStr "client") (VStr "secret") false))
  = Ok (OAuthCredentials.ApiClientProxy "client" [("Authorization", "bearer t0k3n")]).
Proof.
  apply (obtained_token_is_used granting_endpoint Sample.repr "client" []
           (VStr "https://auth/token") (VStr "client") (VStr "secret")
           VNone VNone VNone false
           {| OAuthCredentials.ok := true;
              OAuthCredentials.json_body := Some (VDict [("access_token", VStr "t0k3n")]) |}
           (VDict [("access_token", VStr "t0k3n")]) (VStr "t0k3n"));
    try reflexivity.
  by right.
Defined.

Lemma failed_call_drops_token_witness :
  OAuthCredentials.has_access_token config_with_token = Ok true
  /\ OAuthCredentials.add_client_credentials_token_header Sample.repr "client"
       (OAuthCredentials.config
          (OAuthCredentials.refresh_client_credentials_token refusing_endpoint
             Sample.repr config_with_token))
     = Ok (OAuthCredentials.Client "client").
Proof.
  split; [reflexivity|].
  apply (failed_call_drops_token refusing_endpoint Sample.repr "client" config_with_token
           (VStr "https://auth/token") (VStr "client") (VStr "secret") true
           (OAuthCredentials.Unauthorized
              "Response for obtaining access_token {'error': 'invalid_client'}"));
    [done | reflexivity].
Defined.

Lemma refresh_repeats_call_witness :
  OAuthCredentials.calls
    (OAuthCredentials.refresh_client_credentials_token granting_endpoint Sample.repr
       (OAuthCredentials.config
          (OAuthCredentials.obtain_client_credentials_token granting_endpoint Sample.repr
             [] (VStr "https://auth/token") (VStr "client") (VStr "secret") false)))
  = [ {| OAuthCredentials.call_url := VStr "https://auth/token";
         OAuthCredentials.call_data := [("grant_type", VStr "client_credentials")];
         OAuthCredentials.call_auth := (VStr "client", VStr "secret");
         OAuthCredentials.call_timeout := 5 |} ].
Proof.
  destruct (refresh_repeats_call granting_endpoint Sample.repr []
              (VStr "https://auth/token") (VStr "client") (VStr "secret") false
              (or_intror eq_refl) eq_refl) as [Hsame Hcalls].
  by rewrite Hsame, Hcalls.
Defined.

(** ** Tests that raise *)

(** Claim C4, as the code has it. A candidate whose test raises decides the
    outcome by its position: with a JSON array as body the [OrganizationGUID]
    test raises [AttributeError]; placed before a rule that allows, the
    evaluator raises, placed after it the verdict is [Allow]. *)
Lemma candidate_order_matters :
  Permutation [guid_rule; role_rule] [role_rule; guid_rule]
  /\ matching Sample.fnmatch (request_endpoint array_body_request)
       (method array_body_request) [guid_rule; role_rule]
     = Ok [OrganizationGUID Json (VStr "customerId");
           SABRoles {["Infraverantwoordelijke"]}]
  /\ test (SABRoles {["Infraverantwoordelijke"]}) sample_claims array_body_request
     = Ok true
  /\ decide Sample.fnmatch Sample.repr Sample.repr_set [guid_rule; role_rule]
       sample_claims array_body_request = Raise AttributeError
  /\ decide Sample.fnmatch Sample.repr Sample.repr_set [role_rule; guid_rule]
       sample_claims array_body_request = Ok Allow.
Proof.
  split; [apply perm_swap|]. split_and!; vm_compute; reflexivity.
Qed.

(** Claim C6, as the code has it. A child whose test raises makes the
    combinator raise: with a scope claim that is [None] the [Scopes] test
    raises [AttributeError], so [AnyOf] raises although another child tests
    true, and [AllOf] raises although no child tests false. *)
Lemma combinator_children_raise :
  test (SABRoles {["Infraverantwoordelijke"]}) null_scope_claims sample_request = Ok true
  /\ test (AnyOf [Scopes {[HStr "read"]}; SABRoles {["Infraverantwoordelijke"]}])
       null_scope_claims sample_request = Raise AttributeError
  /\ ~ Exists (fun c => test c null_scope_claims sample_request = Ok false)
        [Scopes {[HStr "read"]}]
  /\ test (AllOf [Scopes {[HStr "read"]}]) null_scope_claims sample_request
     = Raise AttributeError.
Proof.
  assert (Hscopes : test (Scopes {[HStr "read"]}) null_scope_claims sample_request
                    = Raise AttributeError) by reflexivity.
  split_and!.
  - vm_compute. reflexivity.
  - vm_compute. reflexivity.
  - intros H. apply Exists_cons in H as [H|H]; [congruence|].
    by apply Exists_nil in H.
  - vm_compute. reflexivity.
Qed.

(** Claim C7, as the code has it. [request.json] is [None] also for a body
    that is the JSON value null, and then the test is true although the user
    has no organization GUID at all; and a body that parses to an array makes
    the test raise [AttributeError], also for a user who has the GUID. *)
Lemma json_null_and_array_bodies :
  UserAttributes.organization_guids sample_claims = Ok ∅
  /\ json sample_request = VNone
  /\ test (OrganizationGUID Json (VStr "customerId")) sample_claims sample_request
     = Ok true
  /\ UserAttributes.organization_guids customer_claims = Ok {["c9b5e717"]}
  /\ json array_body_request = VList [VStr "c9b5e717"]
  /\ test (OrganizationGUID Json (VStr "customerId")) customer_claims array_body_request
     = Raise AttributeError.
Proof. split_and!; vm_compute; reflexivity. Qed.
